(** * parallelplot: a grid of plots rendered by a process pool

    A shallow embedding of [parallelplot/plot.py].  The module has two
    functions: [_parallel_plot_worker], run in a pool process for one
    [(index, data)] task, and [parallel_plot], which creates the parent
    figure, fans the tasks out over a [multiprocessing.Pool], and draws
    every returned image into the grid cell computed from its index.

    What is modelled, and how:
    - Python integers are [Z].  [index % n] is floored modulo
      ([Z.modulo]); [int(index / n)] is the true quotient truncated
      toward zero ([Z.quot]): the binary64 rounding of [index / n] is
      left out, it does not change the integer part for the grid sizes a
      figure can hold.  Both raise [ZeroDivisionError] on a zero divisor.
    - Exceptions are values of [exn]; code that can raise returns a
      [result], and code that also touches the file system or the pool
      runs in the state-and-exception monad [M] over a [world].
    - The only part of the file system the module touches is the entry
      [CACHE_DIR] of the working directory: absent, a regular file, or a
      directory mapping file names to file contents ([gmap string Image]).
    - matplotlib objects are records: an [Axes] keeps its title, its
      y label, its tick lists, the visibility of its spines and the
      stack of images drawn into it; the array returned by
      [plt.subplots(..., squeeze=False)] is a list of rows.
    - The order in which [imap_unordered] yields results is not fixed by
      the program.  It is a parameter of the model ([completion], a
      function that permutes the submitted tasks), as is the number of
      further tasks the workers had finished when the pool is terminated
      by an exception ([overrun]). *)

From stdpp Require Import base numbers list strings pretty gmap fin_maps.

Local Open Scope Z_scope.

(** ** Exceptions and results *)

Inductive exn : Type :=
| ZeroDivisionError
| IndexError
| ValueError
| ImportError
| FileNotFoundError
| NotADirectoryError
| FileExistsError
| CallbackError (msg : string).

Global Instance exn_eq_dec : EqDecision exn.
Proof. solve_decision. Defined.

Inductive result (A : Type) : Type :=
| Ok (a : A)
| Raise (e : exn).

Global Arguments Ok {A} a.
Global Arguments Raise {A} e.

Global Instance result_eq_dec {A} `{EqDecision A} : EqDecision (result A).
Proof. solve_decision. Defined.

Global Instance result_ret : MRet result := λ A a, Ok a.
Global Instance result_bind : MBind result := λ A B f r,
  match r with
  | Ok a => f a
  | Raise e => Raise e
  end.

Definition is_ok {A} (r : result A) : bool :=
  match r with Ok _ => true | Raise _ => false end.

(** ** Python integer arithmetic *)

(** [a % b] on integers. *)
Definition py_mod (a b : Z) : result Z :=
  if decide (b = 0) then Raise ZeroDivisionError else Ok (a `mod` b).

(** [int(a / b)] on integers. *)
Definition py_int_truediv (a b : Z) : result Z :=
  if decide (b = 0) then Raise ZeroDivisionError else Ok (a `quot` b).

(** ** The index to cell computation (plot.py, lines 98-103)

    The result is the pair [(r, c)] used to subscript [axes]. *)
Definition grid_cell (switch_axis : bool) (n_rows n_cols index : Z) : result (Z * Z) :=
  if switch_axis then
    c ← py_int_truediv index n_rows;
    r ← py_mod index n_rows;
    mret (r, c)
  else
    c ← py_mod index n_cols;
    r ← py_int_truediv index n_cols;
    mret (r, c).

(** ** Strings used as paths *)

Definition CACHE_DIR : string := ".figcache".

(** The path written by a worker: [f"{CACHE_DIR}/{index}.temp.png"]. *)
Definition temp_name (index : Z) : string := pretty index +:+ ".temp.png".
Definition temp_path (index : Z) : string := CACHE_DIR +:+ "/" +:+ temp_name index.

(** [strip_prefix p s] is [Some t] when [s = p +:+ t]. *)
Fixpoint strip_prefix (p s : string) : option string :=
  match p with
  | EmptyString => Some s
  | String a p' =>
      match s with
      | EmptyString => None
      | String b s' => if decide (a = b) then strip_prefix p' s' else None
      end
  end.

(** The name of a file directly inside [CACHE_DIR], from its path. *)
Definition in_cache (path : string) : option string :=
  strip_prefix (CACHE_DIR +:+ "/") path.

Global Arguments temp_name : simpl never.
Global Arguments temp_path : simpl never.
Global Arguments in_cache : simpl never.

(** [for x, y in zip(xs, ys): y.update(x)] on a list of mutable
    objects: the first [min (length xs) (length ys)] objects are
    updated, the others are left as they are. *)
Fixpoint zip_apply {A B} (f : A → B → B) (xs : list A) (ys : list B) : list B :=
  match xs, ys with
  | x :: xs', y :: ys' => f x y :: zip_apply f xs' ys'
  | _, _ => ys
  end.

(** A subscript [i] on an axis of length [len], as numpy reads it:
    negative subscripts count from the end, anything outside
    [-len, len) raises. *)
Definition ndindex (len : nat) (i : Z) : result nat :=
  if decide (- Z.of_nat len ≤ i < Z.of_nat len)
  then Ok (Z.to_nat (if decide (i < 0) then i + Z.of_nat len else i))
  else Raise IndexError.

Section Model.
Context {Data Image : Type}.

(** ** The world outside the parent process *)

(** The directory entry [CACHE_DIR]. *)
Inductive node : Type :=
| Absent
| RegularFile
| Directory (entries : gmap string Image).

(** [cache]: the state of [CACHE_DIR]; [pools]: the sizes of the pools
    created so far; [calls]: the task indices [plot_fn] was called for,
    in the order the calls completed. *)
Record world : Type := World {
  cache : node;
  pools : list Z;
  calls : list Z
}.

Definition set_cache (n : node) (w : world) : world :=
  World n (pools w) (calls w).
Definition log_pool (size : Z) (w : world) : world :=
  World (cache w) (pools w ++ [size]) (calls w).
Definition log_call (index : Z) (w : world) : world :=
  World (cache w) (pools w) (calls w ++ [index]).

(** State and exceptions. *)
Definition M (A : Type) : Type := world → result A * world.

Global Instance M_ret : MRet M := λ A a w, (Ok a, w).
Global Instance M_bind : MBind M := λ A B f m w,
  match m w with
  | (Ok a, w') => f a w'
  | (Raise e, w') => (Raise e, w')
  end.

Definition lift {A} (r : result A) : M A := λ w, (r, w).

(** [os.path.exists(CACHE_DIR)] *)
Definition os_path_exists : M bool := λ w,
  (Ok (match cache w with Absent => false | _ => true end), w).

(** [os.mkdir(CACHE_DIR)] *)
Definition os_mkdir : M unit := λ w,
  match cache w with
  | Absent => (Ok (), set_cache (Directory ∅) w)
  | _ => (Raise FileExistsError, w)
  end.

(** [shutil.rmtree(CACHE_DIR)] *)
Definition shutil_rmtree : M unit := λ w,
  match cache w with
  | Directory _ => (Ok (), set_cache Absent w)
  | RegularFile => (Raise NotADirectoryError, w)
  | Absent => (Raise FileNotFoundError, w)
  end.

(** [plt.savefig(path)], for the image [img] of the current figure. *)
Definition savefig (path : string) (img : Image) : M unit := λ w,
  match cache w, in_cache path with
  | Directory d, Some name => (Ok (), set_cache (Directory (<[name := img]> d)) w)
  | RegularFile, Some _ => (Raise NotADirectoryError, w)
  | _, _ => (Raise FileNotFoundError, w)
  end.

(** [plt.imread(path)] *)
Definition imread (path : string) : M Image := λ w,
  match cache w, in_cache path with
  | Directory d, Some name =>
      match d !! name with
      | Some img => (Ok img, w)
      | None => (Raise FileNotFoundError, w)
      end
  | RegularFile, Some _ => (Raise NotADirectoryError, w)
  | _, _ => (Raise FileNotFoundError, w)
  end.

(** [Pool(processes)]: the pool refuses fewer than one process. *)
Definition Pool (processes : Z) : M unit := λ w,
  if decide (processes < 1) then (Raise ValueError, w)
  else (Ok (), log_pool processes w).

(** ** Callbacks

    [plot_fn(data, fig, axes)] draws on the fresh figure of the given
    size; what it drew is the image that [savefig] writes.
    [preprocessing_fn(data)] returns the data to plot.  Either may
    raise. *)
Definition plot_callback : Type := Data → Z * Z → result Image.
Definition preprocessing_callback : Type := Data → result Data.

(** Lines 16-17: [if preprocessing_fn is not None: data = ...]. *)
Definition preprocessed (preprocessing_fn : option preprocessing_callback)
    (data : Data) : result Data :=
  match preprocessing_fn with
  | Some f => f data
  | None => Ok data
  end.

(** ** The worker (plot.py, lines 13-28) *)
Definition _parallel_plot_worker (args : Z * Data) (plot_fn : plot_callback)
    (figsize : Z * Z) (preprocessing_fn : option preprocessing_callback) : M (Z * string) :=
  let '(index, data) := args in
  data ← lift (preprocessed preprocessing_fn data);
  img ← (λ w, (plot_fn data figsize, log_call index w));
  let path := temp_path index in
  _ ← savefig path img;
  mret (index, path).

(** What a worker draws for one data item when nothing raises:
    the preprocessing, then the plot. *)
Definition rendering (plot_fn : plot_callback) (figsize : Z * Z)
    (preprocessing_fn : option preprocessing_callback) (data : Data) : result Image :=
  data' ← preprocessed preprocessing_fn data;
  plot_fn data' figsize.

(** ** matplotlib objects *)

Record Axes : Type := MkAxes {
  ax_title : option string;
  ax_ylabel : option string;
  ax_xticks : option (list Z);
  ax_yticks : option (list Z);
  ax_spines_visible : bool;
  ax_images : list Image
}.

Record Figure : Type := MkFigure { fig_size : Z * Z }.

(** A new, empty subplot: automatic ticks, visible spines. *)
Definition new_axes : Axes := MkAxes None None None None true [].

Definition set_title (label : string) (ax : Axes) : Axes :=
  MkAxes (Some label) (ax_ylabel ax) (ax_xticks ax) (ax_yticks ax)
         (ax_spines_visible ax) (ax_images ax).
Definition set_ylabel (label : string) (ax : Axes) : Axes :=
  MkAxes (ax_title ax) (Some label) (ax_xticks ax) (ax_yticks ax)
         (ax_spines_visible ax) (ax_images ax).
(** Lines 80-83: no ticks, no spines. *)
Definition strip_decorations (ax : Axes) : Axes :=
  MkAxes (ax_title ax) (ax_ylabel ax) (Some []) (Some []) false (ax_images ax).
Definition imshow (img : Image) (ax : Axes) : Axes :=
  MkAxes (ax_title ax) (ax_ylabel ax) (ax_xticks ax) (ax_yticks ax)
         (ax_spines_visible ax) (ax_images ax ++ [img]).

(** [plt.subplots(nrows, ncols, figsize, squeeze=False)]: the grid
    needs a positive number of rows and of columns. *)
Definition plt_subplots (nrows ncols : Z) (figsize : Z * Z) : result (Figure * list (list Axes)) :=
  if decide (0 < nrows ∧ 0 < ncols)
  then Ok (MkFigure figsize,
           replicate (Z.to_nat nrows) (replicate (Z.to_nat ncols) new_axes))
  else Raise ValueError.

(** Lines 71-73: [zip(col_labels, axes[0])]. *)
Definition apply_col_labels (col_labels : list string) (axes : list (list Axes))
    : result (list (list Axes)) :=
  match axes with
  | [] => Raise IndexError
  | row0 :: rest => Ok (zip_apply set_title col_labels row0 :: rest)
  end.

(** Lines 75-77: [zip(row_labels, axes[:, 0])]. *)
Definition apply_row_labels (row_labels : list string) (axes : list (list Axes))
    : result (list (list Axes)) :=
  if forallb (λ row, match row with [] => false | _ => true end) axes
  then Ok (zip_apply (λ label row, alter (set_ylabel label) 0%nat row) row_labels axes)
  else Raise IndexError.

(** Lines 71-83: the labels, then no ticks and no spines anywhere
    ([for ax in axes.flatten(): ...]). *)
Definition strip_all (axes : list (list Axes)) : list (list Axes) :=
  (λ row : list Axes, strip_decorations <$> row) <$> axes.

Definition if_given (labels : option (list string))
    (apply : list string → list (list Axes) → result (list (list Axes)))
    (axes : list (list Axes)) : result (list (list Axes)) :=
  match labels with
  | Some labels' => apply labels' axes
  | None => Ok axes
  end.

Definition decorate (col_labels row_labels : option (list string))
    (axes : list (list Axes)) : result (list (list Axes)) :=
  axes ← if_given col_labels apply_col_labels axes;
  axes ← if_given row_labels apply_row_labels axes;
  mret (strip_all axes).

(** Line 105: [axes[r, c].imshow(img)]. *)
Definition axes_imshow (r c : Z) (img : Image) (axes : list (list Axes))
    : result (list (list Axes)) :=
  i ← ndindex (length axes) r;
  match axes !! i with
  | None => Raise IndexError
  | Some row =>
      j ← ndindex (length row) c;
      mret (alter (alter (imshow img) j) i axes)
  end.

(** Lines 98-105: where the image of task [index] goes. *)
Definition place (switch_axis : bool) (n_rows n_cols : Z)
    (axes : list (list Axes)) (item : Z * Image) : result (list (list Axes)) :=
  '(r, c) ← grid_cell switch_axis n_rows n_cols item.1;
  axes_imshow r c item.2 axes.

(** The placements of a whole sequence of images, first to last. *)
Fixpoint assemble (switch_axis : bool) (n_rows n_cols : Z)
    (axes : list (list Axes)) (items : list (Z * Image)) : result (list (list Axes)) :=
  match items with
  | [] => Ok axes
  | item :: items' =>
      axes' ← place switch_axis n_rows n_cols axes item;
      assemble switch_axis n_rows n_cols axes' items'
  end.

(** ** The host

    [cpu_count] is [os.cpu_count()]; [tqdm_installed] tells whether
    [from tqdm import tqdm] succeeds; [completion] gives the order in
    which the submitted tasks complete, and [overrun] how many of the
    tasks not yet consumed had completed when an exception terminated
    the pool. *)
Record host : Type := Host {
  cpu_count : Z;
  tqdm_installed : bool;
  completion : list (Z * Data) → list (Z * Data);
  overrun : nat
}.

(** A task that completes unobserved: its effects stay, its result is
    dropped. *)
Definition run_unobserved (worker_func : Z * Data → M (Z * string))
    (tasks : list (Z * Data)) (w : world) : world :=
  foldl (λ w' t, (worker_func t w').2) w tasks.

(** Leaving the [with Pool(...)] block by an exception: the pool is
    terminated, and the tasks that completed in the meantime have run. *)
Definition abandon {A} (h : host) (worker_func : Z * Data → M (Z * string))
    (pending : list (Z * Data)) (e : exn) : M A := λ w,
  (Raise e, run_unobserved worker_func (take (overrun h) pending) w).

(** Lines 95-105: the loop over the results, one completed task at a
    time. *)
Fixpoint collect (h : host) (worker_func : Z * Data → M (Z * string))
    (switch_axis : bool) (n_rows n_cols : Z)
    (pending : list (Z * Data)) (axes : list (list Axes)) : M (list (list Axes)) :=
  match pending with
  | [] => mret axes
  | t :: rest => λ w,
      match ('(index, path) ← worker_func t;
             img ← imread path;
             lift (place switch_axis n_rows n_cols axes (index, img))) w with
      | (Ok axes', w') => collect h worker_func switch_axis n_rows n_cols rest axes' w'
      | (Raise e, w') => abandon h worker_func rest e w'
      end
  end.

(** Lines 58-59: the cache directory is created unless the path
    exists. *)
Definition open_cache : M unit :=
  present ← os_path_exists;
  if negb present then os_mkdir else mret ().

(** Lines 64-65 and line 90: the tasks, [zip(range(total), data)]. *)
Definition effective_total (total : option Z) (data : list Data) : Z :=
  match total with
  | None => Z.of_nat (length data)
  | Some t => t
  end.
Definition tasks (total : Z) (data : list Data) : list (Z * Data) :=
  zip (seqZ 0 total) data.

(** ** The entry point (plot.py, lines 31-110) *)
Definition parallel_plot (h : host) (plot_fn : plot_callback) (data : list Data)
    (grid_shape : Z * Z) (total : option Z)
    (preprocessing_fn : option preprocessing_callback)
    (col_labels row_labels : option (list string))
    (grid_cell_size : Z * Z) (switch_axis cleanup show_progress : bool)
    : M (Figure * list (list Axes)) :=
  _ ← open_cache;
  let n_rows := grid_shape.1 in
  let n_cols := grid_shape.2 in
  let total := effective_total total data in
  let full_figsize := (n_cols * grid_cell_size.1, n_rows * grid_cell_size.2) in
  '(fig, axes) ← lift (plt_subplots n_rows n_cols full_figsize);
  axes ← lift (decorate col_labels row_labels axes);
  let worker_func := λ args,
    _parallel_plot_worker args plot_fn grid_cell_size preprocessing_fn in
  _ ← Pool (Z.min total (cpu_count h));
  let iterator := completion h (tasks total data) in
  _ ← (if show_progress && negb (tqdm_installed h)
       then abandon h worker_func iterator ImportError
       else mret ());
  axes ← collect h worker_func switch_axis n_rows n_cols iterator axes;
  _ ← (if cleanup then shutil_rmtree else mret ());
  mret (fig, axes).

(** ** Vocabulary of the statements *)

(** [axes] has [n_rows] rows of [n_cols] subplots each. *)
Definition rectangular (n_rows n_cols : Z) (axes : list (list Axes)) : Prop :=
  Z.of_nat (length axes) = n_rows ∧
  Forall (λ row, Z.of_nat (length row) = n_cols) axes.

(** The subplot in row [i] and column [j], counted from zero. *)
Definition cell (axes : list (list Axes)) (i j : nat) : option Axes :=
  row ← axes !! i; row !! j.

(** A projection of a subplot that drawing an image does not change:
    its title, its y label. *)
Definition kept_by_imshow {B} (proj : Axes → B) : Prop :=
  ∀ img ax, proj (imshow img ax) = proj ax.

(** The images, in the order of arrival, of the items whose index
    is mapped to row [i] and column [j]. *)
Definition hits (switch_axis : bool) (n_rows n_cols : Z) (i j : nat)
    (items : list (Z * Image)) : list Image :=
  omap (λ item : Z * Image,
          if decide (grid_cell switch_axis n_rows n_cols item.1
                     = Ok (Z.of_nat i, Z.of_nat j))
          then Some item.2 else None) items.

(** A subplot after a sequence of [imshow] calls. *)
Definition shown (imgs : list Image) (ax : Axes) : Axes :=
  foldl (λ ax' img, imshow img ax') ax imgs.

(** The entries of the cache directory; none when there is no
    directory. *)
Definition entries_of (n : node) : gmap string Image :=
  match n with
  | Directory d => d
  | _ => ∅
  end.

End Model.

(** ** Sample inputs

    Data items and images are integers here: a data item [x] is drawn
    as the image [10 * x], and a negative item makes the plot raise.
    The sample host has four processors and the progress bar; its tasks
    complete in the reverse of the order of submission, and one more
    task has completed when an exception terminates the pool. *)

Definition sample_host : host (Data:=Z) := Host 4 true reverse 1.

Definition sample_plot : plot_callback (Data:=Z) (Image:=Z) :=
  λ x _, if decide (x < 0) then Raise (CallbackError "negative") else Ok (10 * x).

(** No cache directory yet, and one left behind by somebody else. *)
Definition no_cache : world (Image:=Z) := World Absent [] [].
Definition old_cache : world (Image:=Z) :=
  World (Directory {[ "0.temp.png" := 99; "notes.txt" := 7 ]}) [] [].

(** A regular file in the place of the cache directory. *)
Definition file_in_place : world (Image:=Z) := World RegularFile [] [].

(** A host like the sample host whose tasks complete in the order of
    submission, and a smaller one without the progress bar. *)
Definition orderly_host : host (Data:=Z) := Host 4 true (λ l, l) 0.
Definition plain_host : host (Data:=Z) := Host 2 false (λ l, l) 0.

(** An empty grid of two rows and three columns. *)
Definition sample_axes : list (list (Axes (Image:=Z))) :=
  replicate 2 (replicate 3 new_axes).

(** * Properties *)

(** ** The index to cell computation *)

Section Grid.
Implicit Types (n_rows n_cols index r c : Z) (switch_axis : bool).

Lemma py_mod_nonzero a b : b ≠ 0 → py_mod a b = Ok (a `mod` b).
Proof. intros Hb. unfold py_mod. by rewrite decide_False. Qed.

Lemma py_int_truediv_nonzero a b : b ≠ 0 → py_int_truediv a b = Ok (a `quot` b).
Proof. intros Hb. unfold py_int_truediv. by rewrite decide_False. Qed.

(** Truncation and floor agree on a non-negative index and a positive
    divisor. *)
Lemma py_int_truediv_floor a b :
  0 ≤ a → 0 < b → py_int_truediv a b = Ok (a `div` b).
Proof.
  intros Ha Hb. rewrite py_int_truediv_nonzero by lia.
  by rewrite Z.quot_div_nonneg.
Qed.

Lemma grid_cell_row_major n_rows n_cols index :
  0 ≤ index → 0 < n_cols →
  grid_cell false n_rows n_cols index = Ok (index `div` n_cols, index `mod` n_cols).
Proof.
  intros Hi Hc. unfold grid_cell.
  rewrite py_mod_nonzero, py_int_truediv_floor by lia. done.
Qed.

Lemma grid_cell_column_major n_rows n_cols index :
  0 ≤ index → 0 < n_rows →
  grid_cell true n_rows n_cols index = Ok (index `mod` n_rows, index `div` n_rows).
Proof.
  intros Hi Hr. unfold grid_cell.
  rewrite py_mod_nonzero, py_int_truediv_floor by lia. done.
Qed.

(** The cell of a non-negative index, with the bounds that hold on any
    grid with positive sides: the coordinate taken modulo a side is
    within that side, the other one is not negative. *)
Lemma grid_cell_nonneg switch_axis n_rows n_cols index :
  0 < n_rows → 0 < n_cols → 0 ≤ index →
  ∃ r c, grid_cell switch_axis n_rows n_cols index = Ok (r, c) ∧ 0 ≤ r ∧ 0 ≤ c ∧
         (index < n_rows * n_cols ↔ r < n_rows ∧ c < n_cols).
Proof.
  intros Hr Hc Hi. destruct switch_axis.
  - rewrite grid_cell_column_major by done.
    eexists _, _. split; [done|].
    pose proof (Z.mod_pos_bound index n_rows Hr).
    pose proof (Z.div_pos index n_rows Hi Hr).
    split; [lia|]. split; [lia|]. split.
    + intros Hlt. split; [lia|]. apply Z.div_lt_upper_bound; lia.
    + intros [_ Hlt]. pose proof (Z.div_mod index n_rows). nia.
  - rewrite grid_cell_row_major by done.
    eexists _, _. split; [done|].
    pose proof (Z.mod_pos_bound index n_cols Hc).
    pose proof (Z.div_pos index n_cols Hi Hc).
    split; [lia|]. split; [lia|]. split.
    + intros Hlt. split; [|lia]. apply Z.div_lt_upper_bound; lia.
    + intros [Hlt _]. pose proof (Z.div_mod index n_cols). nia.
Qed.

(** Two non-negative indices with the same cell are the same index. *)
Lemma grid_cell_inj switch_axis n_rows n_cols i j :
  0 < n_rows → 0 < n_cols → 0 ≤ i → 0 ≤ j →
  grid_cell switch_axis n_rows n_cols i = grid_cell switch_axis n_rows n_cols j →
  i = j.
Proof.
  intros Hr Hc Hi Hj. destruct switch_axis.
  - rewrite (grid_cell_column_major _ _ i), (grid_cell_column_major _ _ j) by done.
    intros [= Hm Hd].
    rewrite (Z.div_mod i n_rows), (Z.div_mod j n_rows) by lia. congruence.
  - rewrite (grid_cell_row_major _ _ i), (grid_cell_row_major _ _ j) by done.
    intros [= Hd Hm].
    rewrite (Z.div_mod i n_cols), (Z.div_mod j n_cols) by lia. congruence.
Qed.

(** The index of a cell. *)
Lemma grid_cell_of_cell switch_axis n_rows n_cols r c :
  0 ≤ r < n_rows → 0 ≤ c < n_cols →
  let index := if switch_axis then c * n_rows + r else r * n_cols + c in
  0 ≤ index < n_rows * n_cols ∧
  grid_cell switch_axis n_rows n_cols index = Ok (r, c).
Proof.
  intros Hr Hc. destruct switch_axis; cbv beta iota zeta.
  - split; [nia|]. rewrite grid_cell_column_major by nia.
    do 2 f_equal.
    + symmetry. apply (Z.mod_unique_pos _ _ c); lia.
    + symmetry. apply (Z.div_unique_pos _ _ _ r); lia.
  - split; [nia|]. rewrite grid_cell_row_major by nia.
    do 2 f_equal.
    + symmetry. apply (Z.div_unique_pos _ _ _ c); lia.
    + symmetry. apply (Z.mod_unique_pos _ _ r); lia.
Qed.

(** C1. For an index within [[0, n_rows * n_cols)] of a grid with
    positive sides, the row-major order ([switch_axis = false]) gives
    column [index mod n_cols] and row [floor (index / n_cols)], and the
    column-major order ([switch_axis = true]) gives column
    [floor (index / n_rows)] and row [index mod n_rows]. *)
Theorem grid_cell_formulas n_rows n_cols index :
  0 < n_rows → 0 < n_cols → 0 ≤ index < n_rows * n_cols →
  grid_cell false n_rows n_cols index = Ok (index `div` n_cols, index `mod` n_cols) ∧
  grid_cell true n_rows n_cols index = Ok (index `mod` n_rows, index `div` n_rows).
Proof.
  intros Hr Hc [Hi _]. split.
  - by apply grid_cell_row_major.
  - by apply grid_cell_column_major.
Qed.

(** C2. On a grid with positive sides and in either order, the map from
    the indices in [[0, n_rows * n_cols)] to cells is a bijection onto
    [{0..n_rows-1} x {0..n_cols-1}]: every index has a cell of the grid,
    no two indices share a cell, and every cell of the grid is the cell
    of an index. *)
Theorem grid_cell_bijection switch_axis n_rows n_cols :
  0 < n_rows → 0 < n_cols →
  (∀ index, 0 ≤ index < n_rows * n_cols →
     ∃ r c, grid_cell switch_axis n_rows n_cols index = Ok (r, c) ∧
            0 ≤ r < n_rows ∧ 0 ≤ c < n_cols) ∧
  (∀ i j, 0 ≤ i < n_rows * n_cols → 0 ≤ j < n_rows * n_cols →
     grid_cell switch_axis n_rows n_cols i = grid_cell switch_axis n_rows n_cols j →
     i = j) ∧
  (∀ r c, 0 ≤ r < n_rows → 0 ≤ c < n_cols →
     ∃ index, 0 ≤ index < n_rows * n_cols ∧
              grid_cell switch_axis n_rows n_cols index = Ok (r, c)).
Proof.
  intros Hr Hc. split; [|split].
  - intros index [Hi Hlt].
    destruct (grid_cell_nonneg switch_axis n_rows n_cols index)
      as (r & c & Hcell & ? & ? & Hin); [done..|].
    apply Hin in Hlt. exists r, c. split; [done|lia].
  - intros i j [Hi _] [Hj _]. by apply grid_cell_inj.
  - intros r c Hrr Hcc.
    destruct (grid_cell_of_cell switch_axis n_rows n_cols r c) as [? ?]; [done..|].
    eauto.
Qed.

(** The six cells of a grid of two rows and three columns, in both
    orders. *)
Example grid_cell_row_major_2_3 :
  grid_cell false 2 3 <$> seqZ 0 6 =
  [Ok (0, 0); Ok (0, 1); Ok (0, 2); Ok (1, 0); Ok (1, 1); Ok (1, 2)].
Proof. reflexivity. Qed.

Example grid_cell_column_major_2_3 :
  grid_cell true 2 3 <$> seqZ 0 6 =
  [Ok (0, 0); Ok (1, 0); Ok (0, 1); Ok (1, 1); Ok (0, 2); Ok (1, 2)].
Proof. reflexivity. Qed.

End Grid.

(** ** The array of subplots *)

Section Array.
Context {Image : Type}.
Implicit Types (axes : list (list (Axes (Image:=Image)))) (img : Image).

Lemma ndindex_nonneg len i :
  0 ≤ i →
  ndindex len i = if decide (i < Z.of_nat len) then Ok (Z.to_nat i) else Raise IndexError.
Proof.
  intros Hi. unfold ndindex. repeat case_decide; try lia; done.
Qed.

Lemma cell_alter f axes i j i' j' :
  cell (alter (alter f j) i axes) i' j' =
  if decide (i = i' ∧ j = j') then f <$> cell axes i' j' else cell axes i' j'.
Proof.
  unfold cell. rewrite list_lookup_alter.
  destruct (decide (i = i')) as [->|Hi].
  - destruct (axes !! i') as [row|] eqn:Hrow; simpl.
    + rewrite list_lookup_alter.
      destruct (decide (j = j')) as [->|Hj].
      * by rewrite decide_True.
      * by rewrite decide_False by (intros [_ ?]; done).
    + by case_decide.
  - by rewrite decide_False by (intros [? _]; done).
Qed.

Lemma cell_is_Some_alter f axes i j i' j' :
  is_Some (cell (alter (alter f j) i axes) i' j') ↔ is_Some (cell axes i' j').
Proof.
  rewrite cell_alter. case_decide; [|done]. by rewrite fmap_is_Some.
Qed.

(** Updates of two different subplots commute. *)
Lemma alter_alter_cell_commute f g axes i1 j1 i2 j2 :
  (i1, j1) ≠ (i2, j2) →
  alter (alter f j1) i1 (alter (alter g j2) i2 axes) =
  alter (alter g j2) i2 (alter (alter f j1) i1 axes).
Proof.
  intros Hne. destruct (decide (i1 = i2)) as [->|Hi].
  - rewrite !list_alter_alter_eq. apply list_alter_ext; [|done].
    intros row _. simpl. apply list_alter_alter_ne. congruence.
  - by apply list_alter_alter_ne.
Qed.

(** A subscript pair without negative parts either names a subplot,
    which gets the image, or raises. *)
Lemma axes_imshow_nonneg r c img axes :
  0 ≤ r → 0 ≤ c →
  axes_imshow r c img axes =
  if decide (is_Some (cell axes (Z.to_nat r) (Z.to_nat c)))
  then Ok (alter (alter (imshow img) (Z.to_nat c)) (Z.to_nat r) axes)
  else Raise IndexError.
Proof.
  intros Hr Hc. unfold axes_imshow. rewrite ndindex_nonneg by done.
  destruct (decide (is_Some (cell _ _ _))) as [[ax Hax]|Hnone].
  - unfold cell in Hax.
    destruct (axes !! Z.to_nat r) as [row|] eqn:Hrow; simplify_eq/=.
    pose proof (lookup_lt_Some _ _ _ Hrow). pose proof (lookup_lt_Some _ _ _ Hax).
    rewrite decide_True by lia. simpl. rewrite Hrow.
    rewrite ndindex_nonneg, decide_True by lia. done.
  - case_decide; [|done]. simpl.
    destruct (axes !! Z.to_nat r) as [row|] eqn:Hrow; [|done].
    rewrite ndindex_nonneg by done. case_decide; [|done].
    exfalso. apply Hnone. unfold cell. rewrite Hrow. simpl.
    apply lookup_lt_is_Some. lia.
Qed.

End Array.

(** ** Placing images *)

Section Placement.
Context {Image : Type}.
Implicit Types (axes : list (list (Axes (Image:=Image)))) (item : Z * Image).
Implicit Types (items : list (Z * Image)) (switch_axis : bool).

(** The subplot of a non-negative index: its row and column as list
    positions. *)
Lemma place_nonneg switch_axis n_rows n_cols axes item :
  0 < n_rows → 0 < n_cols → 0 ≤ item.1 →
  ∃ r c, grid_cell switch_axis n_rows n_cols item.1 = Ok (r, c) ∧
    0 ≤ r ∧ 0 ≤ c ∧
    (item.1 < n_rows * n_cols ↔ r < n_rows ∧ c < n_cols) ∧
    ∀ axes, place switch_axis n_rows n_cols axes item =
      if decide (is_Some (cell axes (Z.to_nat r) (Z.to_nat c)))
      then Ok (alter (alter (imshow item.2) (Z.to_nat c)) (Z.to_nat r) axes)
      else Raise IndexError.
Proof.
  intros Hr Hc Hi.
  destruct (grid_cell_nonneg switch_axis n_rows n_cols item.1)
    as (r & c & Hcell & ? & ? & Hin); [done..|].
  exists r, c. repeat split; try tauto.
  intros axes'. unfold place. rewrite Hcell. simpl.
  by apply axes_imshow_nonneg.
Qed.

(** The images of two different tasks can be placed in either order. *)
Lemma place_commute switch_axis n_rows n_cols axes x y :
  0 < n_rows → 0 < n_cols → 0 ≤ x.1 → 0 ≤ y.1 → x.1 ≠ y.1 →
  (place switch_axis n_rows n_cols axes x ≫= λ a, place switch_axis n_rows n_cols a y) =
  (place switch_axis n_rows n_cols axes y ≫= λ a, place switch_axis n_rows n_cols a x).
Proof.
  intros Hr Hc Hx Hy Hne.
  destruct (place_nonneg switch_axis n_rows n_cols axes x)
    as (r1 & c1 & Hc1 & ? & ? & _ & Hp1); [done..|].
  destruct (place_nonneg switch_axis n_rows n_cols axes y)
    as (r2 & c2 & Hc2 & ? & ? & _ & Hp2); [done..|].
  assert ((Z.to_nat r1, Z.to_nat c1) ≠ (Z.to_nat r2, Z.to_nat c2)) as Hcells.
  { intros [= Hrr Hcc]. apply Hne.
    apply (grid_cell_inj switch_axis n_rows n_cols); [done..|].
    rewrite Hc1, Hc2. do 2 f_equal; lia. }
  rewrite (Hp1 axes), (Hp2 axes).
  destruct (decide (is_Some (cell axes (Z.to_nat r1) (Z.to_nat c1)))) as [Hs1|Hs1];
    destruct (decide (is_Some (cell axes (Z.to_nat r2) (Z.to_nat c2)))) as [Hs2|Hs2];
    simpl; rewrite ?Hp1, ?Hp2;
    rewrite ?(decide_ext _ _ _ _ (cell_is_Some_alter _ _ _ _ _ _)).
  - rewrite !decide_True by done. f_equal. by apply alter_alter_cell_commute.
  - by rewrite decide_False.
  - by rewrite decide_False.
  - done.
Qed.

(** C3. The images of tasks with distinct indices, none negative, are
    placed on a grid with positive sides: whatever the order in which
    the results arrive, the assembly gives the same subplots (or fails
    in both orders). *)
Theorem assemble_order_independent switch_axis n_rows n_cols axes items1 items2 :
  0 < n_rows → 0 < n_cols →
  Forall (λ item, 0 ≤ item.1) items1 →
  NoDup items1.*1 →
  items1 ≡ₚ items2 →
  assemble switch_axis n_rows n_cols axes items1 =
  assemble switch_axis n_rows n_cols axes items2.
Proof.
  intros Hr Hc Hnn Hnd Hperm. revert axes Hnn Hnd.
  induction Hperm as [|x l1 l2 Hperm IH|x y l|l1 l2 l3 H12 IH12 H23 IH23];
    intros axes Hnn Hnd.
  - done.
  - simpl. apply Forall_cons in Hnn as [_ Hnn].
    rewrite fmap_cons in Hnd. apply NoDup_cons in Hnd as [_ Hnd].
    destruct (place _ _ _ axes x) as [axes'|e]; simpl; [|done]. by apply IH.
  - apply Forall_cons in Hnn as [Hy Hnn]. apply Forall_cons in Hnn as [Hx _].
    rewrite !fmap_cons in Hnd. apply NoDup_cons in Hnd as [Hyx _].
    assert (y.1 ≠ x.1) as Hne by (intros Heq; apply Hyx; rewrite Heq; left).
    simpl.
    pose proof (place_commute switch_axis n_rows n_cols axes y x
                  Hr Hc Hy Hx Hne) as Hcomm.
    destruct (place _ _ _ axes y) as [ay|ey]; destruct (place _ _ _ axes x) as [ax|ex];
      simpl in *.
    + destruct (place _ _ _ ay x) as [ayx|e1]; destruct (place _ _ _ ax y) as [axy|e2];
        simpl; by simplify_eq.
    + destruct (place _ _ _ ay x); by simplify_eq.
    + destruct (place _ _ _ ax y); by simplify_eq.
    + done.
  - rewrite IH12 by done. apply IH23.
    + by rewrite <-H12.
    + by rewrite <-H12.
Qed.

End Placement.

(** ** Paths into the cache *)

Lemma strip_prefix_app p s : strip_prefix p (p +:+ s) = Some s.
Proof.
  induction p as [|a p IH]; [done|]. simpl. by rewrite decide_True.
Qed.

Lemma in_cache_temp_path index : in_cache (temp_path index) = Some (temp_name index).
Proof. apply (strip_prefix_app (CACHE_DIR +:+ "/")). Qed.

Lemma string_length_app (s t : string) :
  String.length (s +:+ t) = (String.length s + String.length t)%nat.
Proof.
  induction s as [|a s IH]; [done|].
  change (String a s +:+ t) with (String a (s +:+ t)). simpl. by rewrite IH.
Qed.

Lemma string_app_inj_r (s1 s2 t : string) : s1 +:+ t = s2 +:+ t → s1 = s2.
Proof.
  revert s2. induction s1 as [|a s1 IH]; intros [|b s2] Heq.
  - done.
  - apply (f_equal String.length) in Heq.
    rewrite !string_length_app in Heq. simpl in Heq. lia.
  - apply (f_equal String.length) in Heq.
    rewrite !string_length_app in Heq. simpl in Heq. lia.
  - change (String a (s1 +:+ t) = String b (s2 +:+ t)) in Heq.
    injection Heq as -> Heq. f_equal. by apply IH.
Qed.

(** Different tasks write different files. *)
Lemma temp_name_inj i j : temp_name i = temp_name j → i = j.
Proof.
  unfold temp_name. intros Heq%string_app_inj_r. by apply (inj pretty).
Qed.

(** X5. The tasks of different indices are given different paths, so
    no two workers write the same file. *)
Theorem temp_path_distinct i j : i ≠ j → temp_path i ≠ temp_path j.
Proof.
  intros Hne Heq. apply Hne. unfold temp_path in Heq.
  apply (inj (String.app CACHE_DIR)) in Heq.
  apply (inj (String.app "/")) in Heq.
  by apply temp_name_inj.
Qed.

(** ** Placing images on the grid of the figure *)

Section Figure.
Context {Image : Type}.
Implicit Types (axes : list (list (Axes (Image:=Image)))) (item : Z * Image).
Implicit Types (items : list (Z * Image)) (switch_axis : bool).

Lemma cell_is_Some_rectangular n_rows n_cols axes i j :
  rectangular n_rows n_cols axes →
  is_Some (cell axes i j) ↔ Z.of_nat i < n_rows ∧ Z.of_nat j < n_cols.
Proof.
  intros [Hlen Hrows]. rewrite Forall_lookup in Hrows. unfold cell. split.
  - intros [ax Hax]. destruct (axes !! i) as [row|] eqn:Hrow; simplify_eq/=.
    pose proof (lookup_lt_Some _ _ _ Hrow). pose proof (lookup_lt_Some _ _ _ Hax).
    specialize (Hrows _ _ Hrow). simpl in Hrows. lia.
  - intros [Hi Hj]. destruct (lookup_lt_is_Some_2 axes i) as [row Hrow]; [lia|].
    rewrite Hrow. simpl. apply lookup_lt_is_Some.
    specialize (Hrows _ _ Hrow). simpl in Hrows. lia.
Qed.

Lemma rectangular_alter n_rows n_cols axes f i j :
  rectangular n_rows n_cols axes →
  rectangular n_rows n_cols (alter (alter f j) i axes).
Proof.
  intros [Hlen Hrows]. split; [by rewrite length_alter|].
  rewrite Forall_lookup in Hrows. apply Forall_lookup. intros k row.
  rewrite list_lookup_alter. case_decide; [subst k|by apply Hrows].
  intros (row0 & Hrow0 & ->)%fmap_Some. rewrite length_alter.
  by apply (Hrows i).
Qed.

Lemma place_in_range switch_axis n_rows n_cols axes item :
  rectangular n_rows n_cols axes → 0 < n_rows → 0 < n_cols →
  0 ≤ item.1 < n_rows * n_cols →
  ∃ axes', place switch_axis n_rows n_cols axes item = Ok axes' ∧
    rectangular n_rows n_cols axes' ∧
    ∀ B (proj : Axes → B), kept_by_imshow proj →
      ∀ i j, proj <$> cell axes' i j = proj <$> cell axes i j.
Proof.
  intros Hrect Hr Hc [Hi Hlt].
  destruct (place_nonneg switch_axis n_rows n_cols axes item)
    as (r & c & _ & ? & ? & Hin & Hplace); [done..|].
  rewrite Hplace. apply Hin in Hlt.
  rewrite decide_True
    by (apply (cell_is_Some_rectangular n_rows n_cols); [done|lia]).
  eexists. split; [done|]. split; [by apply rectangular_alter|].
  intros B proj Hproj i j. rewrite cell_alter. case_decide; [|done].
  rewrite <-option_fmap_compose. apply option_fmap_ext. intros ax. apply Hproj.
Qed.

Lemma place_out_of_range switch_axis n_rows n_cols axes item :
  rectangular n_rows n_cols axes → 0 < n_rows → 0 < n_cols →
  n_rows * n_cols ≤ item.1 →
  place switch_axis n_rows n_cols axes item = Raise IndexError.
Proof.
  intros Hrect Hr Hc Hge.
  destruct (place_nonneg switch_axis n_rows n_cols axes item)
    as (r & c & _ & ? & ? & Hin & Hplace); [done|done|nia|].
  rewrite Hplace. rewrite decide_False; [done|].
  rewrite (cell_is_Some_rectangular n_rows n_cols) by done. lia.
Qed.

Lemma assemble_in_range switch_axis n_rows n_cols axes items :
  rectangular n_rows n_cols axes → 0 < n_rows → 0 < n_cols →
  Forall (λ item, 0 ≤ item.1 < n_rows * n_cols) items →
  ∃ axes', assemble switch_axis n_rows n_cols axes items = Ok axes' ∧
    rectangular n_rows n_cols axes' ∧
    ∀ B (proj : Axes → B), kept_by_imshow proj →
      ∀ i j, proj <$> cell axes' i j = proj <$> cell axes i j.
Proof.
  intros Hrect Hr Hc Hitems. revert axes Hrect.
  induction Hitems as [|item items Hitem _ IH]; intros axes Hrect.
  - exists axes. split; [done|]. split; done.
  - destruct (place_in_range switch_axis n_rows n_cols axes item)
      as (axes1 & Hplace & Hrect1 & Hkept1); [done..|].
    destruct (IH axes1 Hrect1) as (axes' & Hasm & Hrect' & Hkept').
    exists axes'. simpl. rewrite Hplace. simpl. split; [done|]. split; [done|].
    intros B proj Hproj i j. by rewrite Hkept', Hkept1.
Qed.

Lemma assemble_out_of_range switch_axis n_rows n_cols axes items :
  rectangular n_rows n_cols axes → 0 < n_rows → 0 < n_cols →
  Forall (λ item, 0 ≤ item.1) items →
  Exists (λ item, n_rows * n_cols ≤ item.1) items →
  assemble switch_axis n_rows n_cols axes items = Raise IndexError.
Proof.
  intros Hrect Hr Hc Hitems. revert axes Hrect.
  induction Hitems as [|item items Hitem _ IH]; intros axes Hrect Hex.
  - by apply Exists_nil in Hex.
  - simpl. destruct (decide (item.1 < n_rows * n_cols)) as [Hlt|Hge].
    + destruct (place_in_range switch_axis n_rows n_cols axes item)
        as (axes1 & Hplace & Hrect1 & _); [done..|].
      rewrite Hplace. simpl. apply IH; [done|].
      apply Exists_cons in Hex as [?|?]; [lia|done].
    + rewrite place_out_of_range by (done || lia). done.
Qed.

(** X17. On the grid of the figure, the image of a task is placed
    exactly when the index of the task is below the number of cells.
    An index beyond the grid raises [IndexError]; it is never wrapped
    around onto the subplot of another task. *)
Theorem place_succeeds_iff_in_grid switch_axis n_rows n_cols axes item :
  rectangular n_rows n_cols axes → 0 < n_rows → 0 < n_cols → 0 ≤ item.1 →
  (item.1 < n_rows * n_cols →
     is_ok (place switch_axis n_rows n_cols axes item) = true) ∧
  (n_rows * n_cols ≤ item.1 →
     place switch_axis n_rows n_cols axes item = Raise IndexError).
Proof.
  intros Hrect Hr Hc Hi. split.
  - intros Hlt.
    destruct (place_in_range switch_axis n_rows n_cols axes item)
      as (axes' & -> & _); done.
  - intros Hge. by apply place_out_of_range.
Qed.

End Figure.

(** ** Labels and decorations *)

Lemma length_zip_apply {A B} (f : A → B → B) xs ys :
  length (zip_apply f xs ys) = length ys.
Proof.
  revert ys. induction xs as [|x xs IH]; intros [|y ys]; simpl; auto.
Qed.

Lemma lookup_zip_apply {A B} (f : A → B → B) xs ys (i : nat) :
  zip_apply f xs ys !! i =
  match xs !! i with
  | Some x => f x <$> ys !! i
  | None => ys !! i
  end.
Proof.
  revert ys i. induction xs as [|x xs IH]; intros [|y ys] [|i]; simpl; try done.
  all: try (by destruct (xs !! i)); apply IH.
Qed.

Section Decorations.
Context {Image : Type}.
Implicit Types (axes : list (list (Axes (Image:=Image)))).
Implicit Types (labels : list string) (col_labels row_labels : option (list string)).

Lemma rectangular_nonempty n_rows n_cols axes :
  rectangular n_rows n_cols axes → 0 < n_rows → 0 < n_cols →
  axes ≠ [] ∧ Forall (λ row, row ≠ []) axes.
Proof.
  intros [Hlen Hrows] Hr Hc. split.
  - intros ->. simpl in Hlen. lia.
  - eapply Forall_impl; [done|]. intros row Hrow ->. simpl in Hrow. lia.
Qed.

Lemma apply_col_labels_rectangular n_rows n_cols labels axes :
  rectangular n_rows n_cols axes → 0 < n_rows → 0 < n_cols →
  ∃ axes', apply_col_labels labels axes = Ok axes' ∧
    rectangular n_rows n_cols axes' ∧
    ∀ i j, cell axes' i j =
      (λ ax, if decide (i = 0%nat)
             then from_option (λ l, set_title l ax) ax (labels !! j)
             else ax) <$> cell axes i j.
Proof.
  intros Hrect Hr Hc.
  destruct (rectangular_nonempty _ _ _ Hrect Hr Hc) as [Hne _].
  destruct Hrect as [Hlen Hrows]. destruct axes as [|row0 rest]; [done|].
  eexists. split; [done|]. split.
  - split; [done|]. apply Forall_cons in Hrows as [Hrow0 Hrest].
    apply Forall_cons. split; [|done]. by rewrite length_zip_apply.
  - intros [|i] j; unfold cell; simpl.
    + rewrite lookup_zip_apply. destruct (labels !! j); simpl; [done|].
      by rewrite option_fmap_id.
    + by rewrite option_fmap_id.
Qed.

Lemma apply_row_labels_rectangular n_rows n_cols labels axes :
  rectangular n_rows n_cols axes → 0 < n_rows → 0 < n_cols →
  ∃ axes', apply_row_labels labels axes = Ok axes' ∧
    rectangular n_rows n_cols axes' ∧
    ∀ i j, cell axes' i j =
      (λ ax, if decide (j = 0%nat)
             then from_option (λ l, set_ylabel l ax) ax (labels !! i)
             else ax) <$> cell axes i j.
Proof.
  intros Hrect Hr Hc.
  destruct (rectangular_nonempty _ _ _ Hrect Hr Hc) as [_ Hne].
  destruct Hrect as [Hlen Hrows]. unfold apply_row_labels.
  assert (forallb (λ row : list (Axes (Image:=Image)),
            match row with [] => false | _ => true end) axes = true) as ->.
  { apply forallb_forall. intros row Hrow%list_elem_of_In.
    rewrite Forall_forall in Hne. specialize (Hne row Hrow). by destruct row. }
  eexists. split; [done|]. split.
  - split; [by rewrite length_zip_apply|].
    rewrite Forall_lookup in Hrows. apply Forall_lookup. intros i row.
    rewrite lookup_zip_apply. destruct (labels !! i); [|by apply Hrows].
    intros (row0 & Hrow0 & ->)%fmap_Some. rewrite length_alter. by apply (Hrows i).
  - intros i j. unfold cell. rewrite lookup_zip_apply.
    destruct (labels !! i) as [l|]; simpl.
    + destruct (axes !! i) as [row|]; simpl; [|done].
      rewrite list_lookup_alter. case_decide; subst.
      * apply option_fmap_ext. intros ax. by rewrite decide_True.
      * rewrite <-(option_fmap_id (row !! j)) at 1.
        apply option_fmap_ext. intros ax. by rewrite decide_False.
    + destruct (axes !! i) as [row|]; simpl; [|done].
      rewrite <-(option_fmap_id (row !! j)) at 1.
      apply option_fmap_ext. intros ax. by case_decide.
Qed.

Lemma strip_all_rectangular n_rows n_cols axes :
  rectangular n_rows n_cols axes →
  rectangular n_rows n_cols (strip_all axes) ∧
  ∀ i j, cell (strip_all axes) i j = strip_decorations <$> cell axes i j.
Proof.
  intros [Hlen Hrows]. unfold strip_all. split.
  - split; [by rewrite length_fmap|].
    apply Forall_fmap. eapply Forall_impl; [done|].
    intros row Hrow. simpl. by rewrite length_fmap.
  - intros i j. unfold cell. rewrite list_lookup_fmap.
    destruct (axes !! i) as [row|]; simpl; [|done]. by rewrite list_lookup_fmap.
Qed.

Lemma fresh_rectangular n_rows n_cols :
  0 ≤ n_rows → 0 ≤ n_cols →
  let axes := replicate (Z.to_nat n_rows) (replicate (Z.to_nat n_cols) (new_axes (Image:=Image))) in
  rectangular n_rows n_cols axes ∧
  ∀ i j, cell axes i j =
    if decide (Z.of_nat i < n_rows ∧ Z.of_nat j < n_cols) then Some new_axes else None.
Proof.
  intros Hr Hc axes. split.
  - split.
    + unfold axes. rewrite length_replicate. lia.
    + apply Forall_replicate. rewrite length_replicate. lia.
  - intros i j. unfold cell, axes. case_decide as Hin.
    + rewrite lookup_replicate_2 by lia. simpl. by rewrite lookup_replicate_2 by lia.
    + destruct (decide (Z.of_nat i < n_rows)).
      * rewrite lookup_replicate_2 by lia. simpl.
        apply lookup_replicate_None. lia.
      * by rewrite (proj1 (lookup_replicate_None _ _ _)) by lia.
Qed.

(** The grid on which the images are placed: every subplot of the new
    figure, labelled where a label was supplied for its position, and
    stripped of ticks and spines. *)
Lemma decorate_fresh n_rows n_cols col_labels row_labels :
  0 < n_rows → 0 < n_cols →
  ∃ axes, decorate col_labels row_labels
            (replicate (Z.to_nat n_rows) (replicate (Z.to_nat n_cols) new_axes))
          = Ok axes ∧
    rectangular n_rows n_cols axes ∧
    ∀ i j, cell axes i j =
      if decide (Z.of_nat i < n_rows ∧ Z.of_nat j < n_cols)
      then Some (@MkAxes Image
                   (if decide (i = 0%nat) then labels ← col_labels; labels !! j else None)
                   (if decide (j = 0%nat) then labels ← row_labels; labels !! i else None)
                   (Some []) (Some []) false [])
      else None.
Proof.
  intros Hr Hc.
  destruct (fresh_rectangular n_rows n_cols) as [Hrect0 Hcell0]; [lia..|].
  set (axes0 := replicate _ _) in *. unfold decorate.
  assert (∃ axes1, if_given col_labels apply_col_labels axes0 = Ok axes1 ∧
            rectangular n_rows n_cols axes1 ∧
            ∀ i j, cell axes1 i j =
              (λ ax, if decide (i = 0%nat)
                     then from_option (λ l, set_title l ax) ax (labels ← col_labels; labels !! j)
                     else ax) <$> cell axes0 i j) as (axes1 & Heq1 & Hrect1 & Hcell1).
  { destruct col_labels as [labels|]; simpl.
    - by apply apply_col_labels_rectangular.
    - exists axes0. split; [done|]. split; [done|]. intros i j.
      rewrite <-(option_fmap_id (cell axes0 i j)) at 1.
      apply option_fmap_ext. intros ax. by case_decide. }
  assert (∃ axes2, if_given row_labels apply_row_labels axes1 = Ok axes2 ∧
            rectangular n_rows n_cols axes2 ∧
            ∀ i j, cell axes2 i j =
              (λ ax, if decide (j = 0%nat)
                     then from_option (λ l, set_ylabel l ax) ax (labels ← row_labels; labels !! i)
                     else ax) <$> cell axes1 i j) as (axes2 & Heq2 & Hrect2 & Hcell2).
  { destruct row_labels as [labels|]; simpl.
    - by apply apply_row_labels_rectangular.
    - exists axes1. split; [done|]. split; [done|]. intros i j.
      rewrite <-(option_fmap_id (cell axes1 i j)) at 1.
      apply option_fmap_ext. intros ax. by case_decide. }
  destruct (strip_all_rectangular _ _ _ Hrect2) as [Hrect3 Hcell3].
  rewrite Heq1. simpl. rewrite Heq2. simpl.
  eexists. split; [done|]. split; [done|].
  intros i j. rewrite Hcell3, Hcell2, Hcell1, Hcell0.
  destruct (decide (Z.of_nat i < n_rows ∧ Z.of_nat j < n_cols)); [|done].
  simpl. f_equal.
  destruct (decide (i = 0%nat)), (decide (j = 0%nat));
    destruct (col_labels ≫= λ labels, labels !! j);
    destruct (row_labels ≫= λ labels, labels !! i); done.
Qed.

End Decorations.

(** ** Where the images end up *)

Section Layout.
Context {Image : Type}.
Implicit Types (axes : list (list (Axes (Image:=Image)))) (item : Z * Image).
Implicit Types (items : list (Z * Image)).
Variables (switch_axis : bool) (n_rows n_cols : Z).
Hypotheses (Hrows : 0 < n_rows) (Hcols : 0 < n_cols).

Lemma shown_images imgs (ax : Axes (Image:=Image)) :
  ax_images (shown imgs ax) = ax_images ax ++ imgs.
Proof.
  unfold shown. revert ax. induction imgs as [|img imgs IH]; intros ax; simpl.
  - by rewrite app_nil_r.
  - rewrite IH. simpl. by rewrite <-app_assoc.
Qed.

Lemma shown_kept {B} (proj : Axes (Image:=Image) → B) imgs ax :
  kept_by_imshow proj → proj (shown imgs ax) = proj ax.
Proof.
  intros Hkept. unfold shown. revert ax.
  induction imgs as [|img imgs IH]; intros ax; simpl; [done|].
  by rewrite IH, Hkept.
Qed.

Lemma shown_app imgs1 imgs2 (ax : Axes (Image:=Image)) :
  shown (imgs1 ++ imgs2) ax = shown imgs2 (shown imgs1 ax).
Proof. unfold shown. apply foldl_app. Qed.

Lemma hits_cons i j item items :
  hits switch_axis n_rows n_cols i j (item :: items) =
  hits switch_axis n_rows n_cols i j [item] ++ hits switch_axis n_rows n_cols i j items.
Proof. unfold hits. simpl. by case_decide. Qed.

Lemma place_cell axes item axes' :
  0 ≤ item.1 →
  place switch_axis n_rows n_cols axes item = Ok axes' →
  ∀ i j, cell axes' i j =
         shown (hits switch_axis n_rows n_cols i j [item]) <$> cell axes i j.
Proof.
  intros Hi Hplace i j.
  destruct (place_nonneg switch_axis n_rows n_cols axes item)
    as (r & c & Hcell & ? & ? & _ & Heq); [done..|].
  rewrite Heq in Hplace. case_decide; [|done]. injection Hplace as <-.
  rewrite cell_alter. unfold hits. simpl. rewrite Hcell.
  destruct (decide (Z.to_nat r = i ∧ Z.to_nat c = j)) as [[<- <-]|Hne].
  - rewrite decide_True by (do 2 f_equal; lia). done.
  - rewrite decide_False.
    + simpl. by rewrite option_fmap_id.
    + intros [= -> ->]. apply Hne. split; lia.
Qed.

(** The subplots after an assembly: every subplot has been shown the
    images mapped to its position, in the order of their arrival. *)
Lemma assemble_cell axes items axes' :
  Forall (λ item, 0 ≤ item.1) items →
  assemble switch_axis n_rows n_cols axes items = Ok axes' →
  ∀ i j, cell axes' i j =
         shown (hits switch_axis n_rows n_cols i j items) <$> cell axes i j.
Proof.
  intros Hitems. revert axes.
  induction Hitems as [|item items Hitem _ IH]; intros axes Hasm i j.
  - simpl in Hasm. injection Hasm as <-. simpl. by rewrite option_fmap_id.
  - simpl in Hasm.
    destruct (place _ _ _ axes item) as [axes1|e] eqn:Hplace; [|done].
    simpl in Hasm. rewrite (IH _ Hasm), (place_cell _ _ _ Hitem Hplace).
    rewrite <-option_fmap_compose, (hits_cons i j item items).
    apply option_fmap_ext. intros ax. simpl. by rewrite shown_app.
Qed.

Lemma hits_nil i j items :
  (∀ item, item ∈ items →
     grid_cell switch_axis n_rows n_cols item.1 ≠ Ok (Z.of_nat i, Z.of_nat j)) →
  hits switch_axis n_rows n_cols i j items = [].
Proof.
  induction items as [|item items IH]; intros Hmiss; [done|].
  rewrite (hits_cons i j item items), IH.
  - unfold hits. simpl. rewrite decide_False; [done|]. apply Hmiss. by left.
  - intros item' Hin. apply Hmiss. by right.
Qed.

(** With distinct indices, at most one image is mapped to a position. *)
Lemma hits_singleton i j items k img :
  NoDup items.*1 → Forall (λ item, 0 ≤ item.1) items →
  (k, img) ∈ items →
  grid_cell switch_axis n_rows n_cols k = Ok (Z.of_nat i, Z.of_nat j) →
  hits switch_axis n_rows n_cols i j items = [img].
Proof.
  intros Hnd Hitems Hin Hcell.
  assert (0 ≤ k) as Hk.
  { rewrite Forall_forall in Hitems. apply (Hitems _ Hin). }
  revert Hnd Hin. induction Hitems as [|item items Hitem Hitems IH]; intros Hnd Hin.
  - by apply elem_of_nil in Hin.
  - rewrite fmap_cons in Hnd. apply NoDup_cons in Hnd as [Hnotin Hnd].
    rewrite (hits_cons i j item items). apply elem_of_cons in Hin as [<-|Hin].
    + unfold hits at 1. simpl. rewrite decide_True by done.
      rewrite hits_nil; [done|].
      intros item' Hin' Hcell'. apply Hnotin. simpl.
      assert (item'.1 = k) as <-.
      { apply (grid_cell_inj switch_axis n_rows n_cols); [done..| |done|congruence].
        rewrite Forall_forall in Hitems. by apply Hitems. }
      by apply list_elem_of_fmap_2.
    + rewrite (IH Hnd Hin). unfold hits. simpl. rewrite decide_False; [done|].
      intros Hcell'. apply Hnotin.
      assert (item.1 = k) as ->.
      { apply (grid_cell_inj switch_axis n_rows n_cols); [done..|congruence]. }
      by apply (list_elem_of_fmap_2 fst _ (k, img)).
Qed.

(** An assembly that succeeds has placed every image inside the grid. *)
Lemma assemble_ok_in_range axes items axes' :
  rectangular n_rows n_cols axes →
  Forall (λ item, 0 ≤ item.1) items →
  assemble switch_axis n_rows n_cols axes items = Ok axes' →
  Forall (λ item, 0 ≤ item.1 < n_rows * n_cols) items.
Proof.
  intros Hrect Hitems Hasm.
  destruct (decide (Exists (λ item : Z * Image, n_rows * n_cols ≤ item.1) items))
    as [Hout|Hin].
  - by rewrite (assemble_out_of_range _ _ _ _ _ Hrect Hrows Hcols Hitems Hout) in Hasm.
  - apply not_Exists_Forall in Hin; [|apply _].
    rewrite Forall_forall in Hitems, Hin. apply Forall_forall. intros item Hitem.
    specialize (Hitems _ Hitem). specialize (Hin _ Hitem). simpl in *. lia.
Qed.

(** Two grids of the same size with the same subplots are the same
    array. *)
Lemma cell_ext axes axes' :
  rectangular n_rows n_cols axes → rectangular n_rows n_cols axes' →
  (∀ i j, cell axes i j = cell axes' i j) → axes = axes'.
Proof.
  intros [Hlen Hrect] [Hlen' Hrect'] Hcells.
  rewrite Forall_lookup in Hrect, Hrect'.
  apply list_eq. intros i.
  destruct (axes !! i) as [row|] eqn:Hrow.
  - destruct (lookup_lt_is_Some_2 axes' i) as [row' Hrow'].
    { apply lookup_lt_Some in Hrow. lia. }
    rewrite Hrow'. f_equal. apply list_eq. intros j.
    specialize (Hcells i j). unfold cell in Hcells. by rewrite Hrow, Hrow' in Hcells.
  - symmetry. apply lookup_ge_None. apply lookup_ge_None in Hrow. lia.
Qed.

End Layout.

(** ** One task: the worker, then the parent *)

Section Program.
Context {Data Image : Type}.
Variables (h : host (Data:=Data))
          (plot_fn : plot_callback (Data:=Data) (Image:=Image))
          (grid_cell_size : Z * Z)
          (preprocessing_fn : option (preprocessing_callback (Data:=Data)))
          (switch_axis : bool) (n_rows n_cols : Z).

Implicit Types (w : world (Image:=Image)) (t : Z * Data).
Implicit Types (axes : list (list (Axes (Image:=Image)))).
Implicit Types (pending : list (Z * Data)) (d : gmap string Image).

Local Abbreviation worker_func :=
  (λ args, _parallel_plot_worker args plot_fn grid_cell_size preprocessing_fn).
Local Abbreviation render := (rendering plot_fn grid_cell_size preprocessing_fn).

(** The worker of a task, in full. *)
Lemma worker_eq t w :
  _parallel_plot_worker t plot_fn grid_cell_size preprocessing_fn w =
  match preprocessed preprocessing_fn t.2 with
  | Raise e => (Raise e, w)
  | Ok x =>
      match plot_fn x grid_cell_size, cache w with
      | Raise e, _ => (Raise e, log_call t.1 w)
      | Ok img, Directory d =>
          (Ok (t.1, temp_path t.1),
           set_cache (Directory (<[temp_name t.1 := img]> d)) (log_call t.1 w))
      | Ok img, RegularFile => (Raise NotADirectoryError, log_call t.1 w)
      | Ok img, Absent => (Raise FileNotFoundError, log_call t.1 w)
      end
  end.
Proof.
  destruct t as [index x]. unfold _parallel_plot_worker, mbind, M_bind, lift. simpl.
  destruct (preprocessed preprocessing_fn x) as [x'|e]; [|done].
  destruct (plot_fn x' grid_cell_size) as [img|e]; [|by destruct (cache w)].
  unfold savefig. rewrite in_cache_temp_path. simpl.
  by destruct (cache w).
Qed.

(** One round of the loop: the task completes in its worker, the parent
    reads the image back and places it. *)
Lemma round_eq t axes w :
  ('(index, path) ← worker_func t;
   img ← imread path;
   lift (place switch_axis n_rows n_cols axes (index, img))) w =
  match _parallel_plot_worker t plot_fn grid_cell_size preprocessing_fn w with
  | (Raise e, w') => (Raise e, w')
  | (Ok _, w') =>
      match render t.2 with
      | Ok img => (place switch_axis n_rows n_cols axes (t.1, img), w')
      | Raise e => (Raise e, w')
      end
  end.
Proof.
  unfold mbind at 1. unfold M_bind. rewrite worker_eq.
  unfold rendering.
  destruct (preprocessed preprocessing_fn t.2) as [x|e]; simpl; [|done].
  destruct (plot_fn x grid_cell_size) as [img|e]; simpl; [|done].
  destruct (cache w) as [| |d] eqn:Hcache; [done..|].
  unfold mbind, M_bind, imread, lift.
  rewrite in_cache_temp_path. simpl. by rewrite lookup_insert_eq.
Qed.

(** What a worker renders decides whether it returns. *)
Lemma worker_render_ok t w img d :
  render t.2 = Ok img → cache w = Directory d →
  _parallel_plot_worker t plot_fn grid_cell_size preprocessing_fn w =
  (Ok (t.1, temp_path t.1),
   set_cache (Directory (<[temp_name t.1 := img]> d)) (log_call t.1 w)).
Proof.
  intros Hrender Hcache. rewrite worker_eq. unfold rendering in Hrender.
  destruct (preprocessed preprocessing_fn t.2) as [x|e]; simpl in Hrender; [|done].
  by rewrite Hrender, Hcache.
Qed.

Lemma worker_render_raise t w e :
  render t.2 = Raise e →
  ∃ w', _parallel_plot_worker t plot_fn grid_cell_size preprocessing_fn w = (Raise e, w').
Proof.
  intros Hrender. rewrite worker_eq. unfold rendering in Hrender.
  destruct (preprocessed preprocessing_fn t.2) as [x|e']; simpl in Hrender.
  - rewrite Hrender. eauto.
  - simplify_eq. eauto.
Qed.

(** ** The loop over the results *)

Lemma collect_cons t pending axes w :
  collect h worker_func switch_axis n_rows n_cols (t :: pending) axes w =
  match _parallel_plot_worker t plot_fn grid_cell_size preprocessing_fn w with
  | (Raise e, w') => abandon h worker_func pending e w'
  | (Ok _, w') =>
      match render t.2 ≫= λ img, place switch_axis n_rows n_cols axes (t.1, img) with
      | Ok axes' => collect h worker_func switch_axis n_rows n_cols pending axes' w'
      | Raise e => abandon h worker_func pending e w'
      end
  end.
Proof.
  cbn [collect]. rewrite round_eq.
  destruct (_parallel_plot_worker _ _ _ _ _) as [[?|?] w']; [|done].
  destruct (render t.2) as [img|e]; simpl; [|done].
  by destruct (place _ _ _ _ _).
Qed.

(** Whatever the workers keep true of the world stays true through the
    loop, however it ends. *)
Lemma run_unobserved_preserves (I : world → Prop) :
  (∀ t w, I w → I (_parallel_plot_worker t plot_fn grid_cell_size preprocessing_fn w).2) →
  ∀ pending w, I w → I (run_unobserved worker_func pending w).
Proof.
  intros Hworker pending. unfold run_unobserved.
  induction pending as [|t pending IH]; intros w Hw; simpl; [done|].
  apply IH. by apply Hworker.
Qed.

Lemma abandon_preserves (I : world → Prop) A :
  (∀ t w, I w → I (_parallel_plot_worker t plot_fn grid_cell_size preprocessing_fn w).2) →
  ∀ pending e w, I w → I (abandon (A:=A) h worker_func pending e w).2.
Proof.
  intros Hworker pending e w Hw. unfold abandon. simpl.
  by apply run_unobserved_preserves.
Qed.

Lemma collect_preserves (I : world → Prop) :
  (∀ t w, I w → I (_parallel_plot_worker t plot_fn grid_cell_size preprocessing_fn w).2) →
  ∀ pending axes w, I w →
    I (collect h worker_func switch_axis n_rows n_cols pending axes w).2.
Proof.
  intros Hworker pending.
  induction pending as [|t pending IH]; intros axes w Hw; [done|].
  rewrite collect_cons. pose proof (Hworker t w Hw) as Hw'.
  destruct (_parallel_plot_worker _ _ _ _ _) as [[?|e] w']; simpl in Hw'.
  - destruct (render t.2 ≫= _) as [axes'|e].
    + by apply IH.
    + by apply abandon_preserves.
  - by apply abandon_preserves.
Qed.

(** A worker creates no pool, forgets no call, and removes nothing from
    the cache directory. *)
Lemma worker_pools t w (sizes : list Z) :
  pools w = sizes →
  pools (_parallel_plot_worker t plot_fn grid_cell_size preprocessing_fn w).2 = sizes.
Proof. intros <-. rewrite worker_eq. by repeat case_match. Qed.

Lemma worker_calls t w (n : nat) :
  (n ≤ length (calls w))%nat →
  (n ≤ length (calls (_parallel_plot_worker t plot_fn grid_cell_size preprocessing_fn w).2))%nat.
Proof.
  intros Hn. rewrite worker_eq.
  repeat case_match; simpl; rewrite ?length_app; simpl; lia.
Qed.

Lemma worker_cache_dir t w (names : gset string) :
  (∃ d, cache w = Directory d ∧ names ⊆ dom d) →
  ∃ d, cache (_parallel_plot_worker t plot_fn grid_cell_size preprocessing_fn w).2
       = Directory d ∧ names ⊆ dom d.
Proof.
  intros (d & Hcache & Hdom). rewrite worker_eq, Hcache.
  repeat case_match; simpl; eauto.
  eexists. split; [done|]. rewrite dom_insert_L. set_solver.
Qed.

(** ** The loop when the tasks render

    [yields t item]: the task [t] renders the image of [item], under
    the index of [t]. *)
Local Abbreviation yields :=
  (λ (t : Z * Data) (item : Z * Image), item.1 = t.1 ∧ render t.2 = Ok item.2).
Local Abbreviation write :=
  (λ d (item : Z * Image), <[temp_name item.1 := item.2]> d).

Lemma yields_exists pending :
  Forall (λ t, is_ok (render t.2) = true) pending →
  ∃ items, Forall2 yields pending items.
Proof.
  induction 1 as [|t pending Ht _ [items IH]].
  - by exists [].
  - destruct (render t.2) as [img|e] eqn:Hrender; [|done].
    exists ((t.1, img) :: items). by constructor.
Qed.

Lemma yields_indices pending items :
  Forall2 yields pending items → items.*1 = pending.*1.
Proof.
  induction 1 as [|t item pending items [Hi _] _ IH]; [done|].
  rewrite !fmap_cons. by f_equal.
Qed.

(** With the cache directory in place and every task rendered, the
    loop ends the way the assembly of the images ends. *)
Lemma collect_rendered pending items axes w d :
  Forall2 yields pending items → cache w = Directory d →
  (collect h worker_func switch_axis n_rows n_cols pending axes w).1 =
  assemble switch_axis n_rows n_cols axes items.
Proof.
  intros Hyields. revert axes w d.
  induction Hyields as [|t item pending items [Hi Hrender] _ IH];
    intros axes w d Hcache; [done|].
  rewrite collect_cons, (worker_render_ok _ _ _ _ Hrender Hcache), Hrender.
  destruct item as [i img]. simpl in *. subst i.
  destruct (place _ _ _ axes (t.1, img)) as [axes'|e]; simpl; [|done].
  by eapply IH.
Qed.

Lemma collect_rendered_ok pending items axes axes' w d :
  Forall2 yields pending items → cache w = Directory d →
  assemble switch_axis n_rows n_cols axes items = Ok axes' →
  collect h worker_func switch_axis n_rows n_cols pending axes w =
  (Ok axes', World (Directory (foldl write d items)) (pools w) (calls w ++ items.*1)).
Proof.
  intros Hyields. revert axes w d.
  induction Hyields as [|t item pending items [Hi Hrender] _ IH];
    intros axes w d Hcache Hasm.
  - simpl in *. simplify_eq. rewrite app_nil_r, <-Hcache. by destruct w.
  - rewrite collect_cons, (worker_render_ok _ _ _ _ Hrender Hcache), Hrender.
    destruct item as [i img]. simpl in *. subst i.
    destruct (place _ _ _ axes (t.1, img)) as [axes1|e]; simpl in *; [|done].
    erewrite IH; [|done|done]. simpl. by rewrite <-app_assoc.
Qed.

Lemma collect_ok_inv pending axes axes' w w' d :
  cache w = Directory d →
  collect h worker_func switch_axis n_rows n_cols pending axes w = (Ok axes', w') →
  ∃ items, Forall2 yields pending items ∧
    assemble switch_axis n_rows n_cols axes items = Ok axes'.
Proof.
  revert axes w d.
  induction pending as [|t pending IH]; intros axes w d Hcache Hcollect.
  - exists []. injection Hcollect as -> _. by split; [constructor|].
  - rewrite collect_cons in Hcollect.
    destruct (render t.2) as [img|e] eqn:Hrender.
    + rewrite (worker_render_ok _ _ _ _ Hrender Hcache) in Hcollect. simpl in Hcollect.
      destruct (place _ _ _ axes (t.1, img)) as [axes1|e] eqn:Hplace; [|done].
      eapply IH in Hcollect as (items & Hyields & Hasm); [|done].
      exists ((t.1, img) :: items). split; [by constructor|].
      simpl. by rewrite Hplace.
    + destruct (worker_render_raise t w e Hrender) as [w1 Hworker].
      by rewrite Hworker in Hcollect.
Qed.

(** A task that does not render makes the loop raise, at that task or
    before it. *)
Lemma collect_raises pending axes w d t e :
  cache w = Directory d → t ∈ pending → render t.2 = Raise e →
  ∃ e', (collect h worker_func switch_axis n_rows n_cols pending axes w).1 = Raise e'.
Proof.
  intros Hcache Hin Hraise. revert axes w d Hcache.
  induction pending as [|t0 pending IH]; intros axes w d Hcache.
  - by apply elem_of_nil in Hin.
  - rewrite collect_cons.
    destruct (render t0.2) as [img|e0] eqn:Hrender.
    + rewrite (worker_render_ok _ _ _ _ Hrender Hcache). simpl.
      destruct (place _ _ _ axes (t0.1, img)) as [axes1|e1]; [|by eexists].
      apply elem_of_cons in Hin as [->|Hin]; [congruence|].
      by eapply IH.
    + destruct (worker_render_raise t0 w e0 Hrender) as [w1 ->]. by eexists.
Qed.

(** The first task of the loop is rendered before anything can stop
    the loop: its call to [plot_fn] is on record. *)
Lemma collect_calls_grow t pending axes w img :
  render t.2 = Ok img →
  (length (calls w) <
   length (calls (collect h worker_func switch_axis n_rows n_cols (t :: pending) axes w).2))%nat.
Proof.
  intros Hrender. rewrite collect_cons.
  pose (I := λ w' : world (Image:=Image), (S (length (calls w)) ≤ length (calls w'))%nat).
  assert (∀ t' w', I w' →
            I (_parallel_plot_worker t' plot_fn grid_cell_size preprocessing_fn w').2)
    as Hkeep by (intros t' w'; apply worker_calls).
  assert (I (_parallel_plot_worker t plot_fn grid_cell_size preprocessing_fn w).2) as Hfirst.
  { unfold I. rewrite worker_eq. unfold rendering in Hrender.
    destruct (preprocessed preprocessing_fn t.2) as [x|?]; simpl in Hrender; [|done].
    rewrite Hrender. destruct (cache w); simpl; rewrite length_app; simpl; lia. }
  destruct (_parallel_plot_worker t _ _ _ w) as [[?|e] w1]; simpl in Hfirst.
  - destruct (render t.2 ≫= _) as [axes1|e].
    + by apply (collect_preserves I).
    + by apply (abandon_preserves I).
  - by apply (abandon_preserves I).
Qed.

(** ** What the loop leaves in the cache directory *)

Lemma written_lookup_other (items : list (Z * Image)) d name :
  (∀ item, item ∈ items → name ≠ temp_name item.1) →
  foldl write d items !! name = d !! name.
Proof.
  revert d. induction items as [|item items IH]; intros d Hname; [done|].
  simpl. rewrite IH.
  - apply lookup_insert_ne. intros Heq. by apply (Hname item); [left|].
  - intros item' Hin. apply Hname. by right.
Qed.

Lemma written_lookup (items : list (Z * Image)) d i img :
  NoDup items.*1 → (i, img) ∈ items →
  foldl write d items !! temp_name i = Some img.
Proof.
  revert d. induction items as [|item items IH]; intros d Hnd Hin.
  - by apply elem_of_nil in Hin.
  - rewrite fmap_cons in Hnd. apply NoDup_cons in Hnd as [Hnotin Hnd].
    simpl. apply elem_of_cons in Hin as [<-|Hin].
    + rewrite written_lookup_other; [by apply lookup_insert_eq|].
      intros item' Hin' Heq%temp_name_inj. simpl in *. apply Hnotin.
      rewrite Heq. by apply list_elem_of_fmap_2.
    + by apply IH.
Qed.

(** ** The tasks *)

Lemma tasks_lookup total (data : list Data) (n : nat) i x :
  tasks total data !! n = Some (i, x) ↔
  i = Z.of_nat n ∧ Z.of_nat n < total ∧ data !! n = Some x.
Proof.
  unfold tasks. rewrite lookup_zip_Some, lookup_seqZ. simpl.
  split; [intros [[-> ?] ?]|intros (-> & ? & ?)]; repeat split; done || lia.
Qed.

Lemma tasks_index total (data : list Data) t :
  t ∈ tasks total data → 0 ≤ t.1 < total ∧ t.2 ∈ data.
Proof.
  destruct t as [i x]. intros [n Hn]%list_elem_of_lookup.
  apply tasks_lookup in Hn as (-> & ? & Hx). simpl. split; [lia|].
  by eapply list_elem_of_lookup_2.
Qed.

Lemma tasks_NoDup total (data : list Data) : NoDup (tasks total data).*1.
Proof.
  apply NoDup_alt. intros n m i.
  rewrite !list_lookup_fmap.
  intros ([i1 x1] & Hn & ?)%fmap_Some ([i2 x2] & Hm & ?)%fmap_Some. simplify_eq/=.
  apply tasks_lookup in Hn as (-> & _ & _). apply tasks_lookup in Hm as (Heq & _ & _).
  lia.
Qed.

Lemma tasks_elem total (data : list Data) k :
  0 ≤ k < total → k < Z.of_nat (length data) →
  ∃ x, (k, x) ∈ tasks total data.
Proof.
  intros Hk Hlen.
  destruct (lookup_lt_is_Some_2 data (Z.to_nat k)) as [x Hx]; [lia|].
  exists x. apply list_elem_of_lookup. exists (Z.to_nat k).
  apply tasks_lookup. split; [lia|]. split; [lia|done].
Qed.

(** ** The whole call *)

Variables (data : list Data) (total : option Z)
          (col_labels row_labels : option (list string))
          (cleanup show_progress : bool).

Local Abbreviation run :=
  (parallel_plot h plot_fn data (n_rows, n_cols) total preprocessing_fn
     col_labels row_labels grid_cell_size switch_axis cleanup show_progress).
Local Abbreviation T := (effective_total total data).
Local Abbreviation workers := (Z.min (effective_total total data) (cpu_count h)).
Local Abbreviation fresh :=
  (replicate (Z.to_nat n_rows) (replicate (Z.to_nat n_cols) (new_axes (Image:=Image)))).
Local Abbreviation opened :=
  (λ w : world (Image:=Image),
     match cache w with
     | Absent => set_cache (Directory ∅) w
     | _ => w
     end).

Lemma open_cache_eq w : open_cache w = (Ok (), opened w).
Proof.
  unfold open_cache, mbind, M_bind, os_path_exists, os_mkdir.
  destruct (cache w) eqn:Hcache; simpl; by rewrite ?Hcache.
Qed.

(** The call, stage by stage. *)
Lemma parallel_plot_eq w :
  run w =
  match plt_subplots n_rows n_cols
          (n_cols * grid_cell_size.1, n_rows * grid_cell_size.2) with
  | Raise e => (Raise e, opened w)
  | Ok (fig, axes0) =>
      match decorate col_labels row_labels axes0 with
      | Raise e => (Raise e, opened w)
      | Ok axes1 =>
          if decide (workers < 1) then (Raise ValueError, opened w)
          else if show_progress && negb (tqdm_installed h)
          then abandon h worker_func (completion h (tasks T data)) ImportError
                 (log_pool workers (opened w))
          else
            match collect h worker_func switch_axis n_rows n_cols
                    (completion h (tasks T data)) axes1
                    (log_pool workers (opened w)) with
            | (Raise e, w') => (Raise e, w')
            | (Ok axes2, w') =>
                if cleanup
                then match shutil_rmtree w' with
                     | (Ok _, w'') => (Ok (fig, axes2), w'')
                     | (Raise e, w'') => (Raise e, w'')
                     end
                else (Ok (fig, axes2), w')
            end
      end
  end.
Proof.
  unfold parallel_plot. unfold mbind at 1. unfold M_bind at 1.
  rewrite open_cache_eq. simpl. unfold mbind at 1, M_bind at 1, lift at 1.
  destruct (plt_subplots _ _ _) as [[fig axes0]|e]; simpl; [|done].
  unfold mbind at 1, M_bind at 1, lift at 1.
  destruct (decorate _ _ _) as [axes1|e]; simpl; [|done].
  unfold mbind at 1, M_bind at 1, Pool at 1.
  case_decide; [done|].
  unfold mbind at 1, M_bind at 1.
  destruct (show_progress && negb (tqdm_installed h)); [done|]. simpl.
  unfold mbind at 1, M_bind at 1.
  destruct (collect _ _ _ _ _ _ _ _) as [[axes2|e] w']; [|done].
  unfold mbind at 1, M_bind at 1.
  destruct cleanup; [|done].
  by destruct (shutil_rmtree w') as [[?|?] ?].
Qed.

Lemma opened_cache w :
  cache w ≠ RegularFile → cache (opened w) = Directory (entries_of (cache w)).
Proof. by destruct w as [[| |d] ? ?]. Qed.

Lemma opened_pools w : pools (opened w) = pools w.
Proof. by destruct w as [[| |d] ? ?]. Qed.

Lemma opened_calls w : calls (opened w) = calls w.
Proof. by destruct w as [[| |d] ? ?]. Qed.

Lemma subplots_fresh figsize :
  0 < n_rows → 0 < n_cols →
  plt_subplots n_rows n_cols figsize = Ok (MkFigure figsize, fresh).
Proof. intros. unfold plt_subplots. by rewrite decide_True. Qed.

Lemma progress_bar_available :
  (show_progress = true → tqdm_installed h = true) →
  show_progress && negb (tqdm_installed h) = false.
Proof. intros Htqdm. destruct show_progress; [by rewrite Htqdm|done]. Qed.

Lemma yields_in_tasks pending items item :
  Forall2 yields pending items → pending ≡ₚ tasks T data → item ∈ items →
  ∃ x, (item.1, x) ∈ tasks T data ∧ render x = Ok item.2.
Proof.
  intros Hyields Hperm [n Hn]%list_elem_of_lookup.
  destruct (Forall2_lookup_r _ _ _ _ _ Hyields Hn) as ([i x] & Ht & Hi & Hrender).
  simpl in *. subst i. exists x. split; [|done].
  rewrite <-Hperm. by eapply list_elem_of_lookup_2.
Qed.

(** What the cache directory holds once every task has been written:
    the image of each task under the name of its index, and whatever
    was there before under any other name. *)
Lemma written_by_tasks pending items d :
  Forall2 yields pending items → pending ≡ₚ tasks T data →
  (∀ i x, (i, x) ∈ tasks T data →
     ∃ img, render x = Ok img ∧ foldl write d items !! temp_name i = Some img) ∧
  (∀ name, (∀ t, t ∈ tasks T data → name ≠ temp_name t.1) →
     foldl write d items !! name = d !! name).
Proof.
  intros Hyields Hperm. split.
  - intros i x Hin. rewrite <-Hperm in Hin.
    apply list_elem_of_lookup in Hin as [n Hn].
    destruct (Forall2_lookup_l _ _ _ _ _ Hyields Hn) as ([i' img] & Hitem & Hi & Hrender).
    simpl in *. subst i'. exists img. split; [done|].
    apply written_lookup; [|by eapply list_elem_of_lookup_2].
    rewrite (yields_indices _ _ Hyields), Hperm. apply tasks_NoDup.
  - intros name Hname. apply written_lookup_other. intros item Hitem.
    destruct (yields_in_tasks _ _ _ Hyields Hperm Hitem) as (x & Hin & _).
    apply (Hname _ Hin).
Qed.

(** When nothing stands in the way: the grid is positive and large
    enough for the tasks, there is a task and a processor, the progress
    bar is available if it is asked for, [CACHE_DIR] is not a regular
    file, and every data item renders.  Then the call returns the
    figure and the assembled subplots. *)
Lemma run_succeeds w :
  0 < n_rows → 0 < n_cols → 1 ≤ T ≤ n_rows * n_cols → 1 ≤ cpu_count h →
  (show_progress = true → tqdm_installed h = true) →
  cache w ≠ RegularFile →
  Forall (λ x, is_ok (render x) = true) data →
  completion h (tasks T data) ≡ₚ tasks T data →
  ∃ axes1 items axes',
    decorate col_labels row_labels fresh = Ok axes1 ∧
    Forall2 yields (completion h (tasks T data)) items ∧
    Forall (λ item, 0 ≤ item.1 < n_rows * n_cols) items ∧
    assemble switch_axis n_rows n_cols axes1 items = Ok axes' ∧
    run w =
    (Ok (MkFigure (n_cols * grid_cell_size.1, n_rows * grid_cell_size.2), axes'),
     World (if cleanup then Absent
            else Directory (foldl write (entries_of (cache w)) items))
           (pools w ++ [workers]) (calls w ++ items.*1)).
Proof.
  intros Hr Hc [HT1 HT2] Hcpu Htqdm Hfile Hdata Hperm.
  destruct (decorate_fresh (Image:=Image) n_rows n_cols col_labels row_labels Hr Hc)
    as (axes1 & Hdec & Hrect & _).
  assert (Forall (λ t, is_ok (render t.2) = true) (completion h (tasks T data))) as Hok.
  { rewrite Hperm. apply Forall_forall. intros t [_ Ht]%tasks_index.
    rewrite Forall_forall in Hdata. by apply Hdata. }
  destruct (yields_exists _ Hok) as [items Hyields].
  assert (Forall (λ item, 0 ≤ item.1 < n_rows * n_cols) items) as Hrange.
  { apply Forall_forall. intros item Hitem.
    destruct (yields_in_tasks _ _ _ Hyields Hperm Hitem) as (x & [Hi _]%tasks_index & _).
    simpl in Hi. lia. }
  destruct (assemble_in_range switch_axis n_rows n_cols axes1 items Hrect Hr Hc Hrange)
    as (axes' & Hasm & _ & _).
  exists axes1, items, axes'. split; [done|]. split; [done|]. split; [done|].
  split; [done|].
  rewrite parallel_plot_eq, subplots_fresh, Hdec by done.
  rewrite decide_False by lia. rewrite progress_bar_available by done.
  erewrite collect_rendered_ok; [|done|by apply opened_cache|done].
  simpl. rewrite opened_pools, opened_calls.
  by destruct cleanup.
Qed.

(** A call that returns has rendered every task and left the cache as
    [cleanup] says. *)
Lemma run_ok_inv w fig axes' w' :
  cache w ≠ RegularFile →
  run w = (Ok (fig, axes'), w') →
  ∃ items, Forall2 yields (completion h (tasks T data)) items ∧
    w' = World (if cleanup then Absent
                else Directory (foldl write (entries_of (cache w)) items))
               (pools w ++ [workers]) (calls w ++ items.*1).
Proof.
  intros Hfile Hrun. rewrite parallel_plot_eq in Hrun.
  destruct (plt_subplots _ _ _) as [[fig0 axes0]|e]; [|done].
  destruct (decorate _ _ _) as [axes1|e]; [|done].
  case_decide; [done|].
  destruct (show_progress && negb (tqdm_installed h)); [done|].
  destruct (collect _ _ _ _ _ _ _ _) as [[axes2|e] w3] eqn:Hcollect; [|done].
  pose proof (opened_cache w Hfile) as Hcache.
  eapply (collect_ok_inv _ _ _ _ _ (entries_of (cache w))) in Hcollect as Hinv;
    [|done].
  destruct Hinv as (items & Hyields & Hasm).
  erewrite collect_rendered_ok in Hcollect; [|done|by apply Hcache|done].
  simpl in Hcollect. rewrite opened_pools, opened_calls in Hcollect.
  injection Hcollect as <-.
  exists items. split; [done|].
  destruct cleanup; simpl in Hrun; by simplify_eq.
Qed.

(** ** The claims about the whole call *)

(** C6. With at least one task, on a grid with positive sides and a
    host with at least one processor, the call creates one pool, of
    exactly [min (total, cpu_count)] processes, whatever happens
    afterwards; that size exceeds neither [total] nor the processor
    count. *)
Theorem pool_size w :
  0 < n_rows → 0 < n_cols → 1 ≤ effective_total total data → 1 ≤ cpu_count h →
  pools (parallel_plot h plot_fn data (n_rows, n_cols) total preprocessing_fn
      col_labels row_labels grid_cell_size switch_axis cleanup show_progress w).2
  = pools w ++ [Z.min (effective_total total data) (cpu_count h)] ∧
  Z.min (effective_total total data) (cpu_count h) ≤ effective_total total data ∧
  Z.min (effective_total total data) (cpu_count h) ≤ cpu_count h.
Proof.
  intros Hr Hc HT Hcpu. split; [|lia].
  destruct (decorate_fresh (Image:=Image) n_rows n_cols col_labels row_labels Hr Hc)
    as (axes1 & Hdec & _).
  rewrite parallel_plot_eq, subplots_fresh, Hdec by done.
  rewrite decide_False by lia.
  pose (I := λ w' : world (Image:=Image), pools w' = pools w ++ [workers]).
  assert (∀ t w', I w' →
            I (_parallel_plot_worker t plot_fn grid_cell_size preprocessing_fn w').2)
    as Hkeep by (intros t w'; apply worker_pools).
  assert (I (log_pool workers (opened w))) as Hstart.
  { unfold I. simpl. by rewrite opened_pools. }
  destruct (show_progress && negb (tqdm_installed h)).
  { by apply (abandon_preserves I). }
  pose proof (collect_preserves I Hkeep (completion h (tasks T data)) axes1 _ Hstart)
    as Hloop.
  destruct (collect _ _ _ _ _ _ _ _) as [[axes2|e] w3]; simpl in Hloop; [|done].
  destruct cleanup; [|done].
  unfold shutil_rmtree. by destruct (cache w3).
Qed.

(** C10. A call with no task at all ([total = 0], as for an empty
    [data] whose length is taken) never returns a figure: it raises
    [ValueError], from [plt.subplots] when a side of the grid is not
    positive and otherwise from [Pool(0)]; no pool is created and
    [plot_fn] is not called. *)
Theorem empty_input_raises w :
  effective_total total data = 0 →
  ∃ w',
    parallel_plot h plot_fn data (n_rows, n_cols) total preprocessing_fn
      col_labels row_labels grid_cell_size switch_axis cleanup show_progress w
    = (Raise ValueError, w') ∧
    pools w' = pools w ∧ calls w' = calls w.
Proof.
  intros HT. rewrite parallel_plot_eq. unfold plt_subplots.
  case_decide as Hpos.
  - destruct Hpos as [Hr Hc].
    destruct (decorate_fresh (Image:=Image) n_rows n_cols col_labels row_labels Hr Hc)
      as (axes1 & Hdec & _).
    rewrite Hdec, decide_True by lia.
    eexists. split; [done|]. by rewrite opened_pools, opened_calls.
  - eexists. split; [done|]. by rewrite opened_pools, opened_calls.
Qed.

(** C4, as the code has it.  When [total] exceeds the number of cells
    (and [data] has that many items, all of which render), nothing is
    checked beforehand: the pool is created, [plot_fn] is called at
    least once, and the call raises [IndexError] from the subscript
    [axes[r, c]] of the first result that falls outside the grid. *)
Theorem oversized_total_raises_in_loop w :
  0 < n_rows → 0 < n_cols →
  n_rows * n_cols < effective_total total data →
  effective_total total data ≤ Z.of_nat (length data) →
  1 ≤ cpu_count h →
  (show_progress = true → tqdm_installed h = true) →
  cache w ≠ RegularFile →
  Forall (λ x, is_ok (rendering plot_fn grid_cell_size preprocessing_fn x) = true) data →
  completion h (tasks (effective_total total data) data) ≡ₚ tasks (effective_total total data) data →
  ∃ w',
    parallel_plot h plot_fn data (n_rows, n_cols) total preprocessing_fn
      col_labels row_labels grid_cell_size switch_axis cleanup show_progress w
    = (Raise IndexError, w') ∧
    pools w' = pools w ++ [Z.min (effective_total total data) (cpu_count h)] ∧
    (length (calls w) < length (calls w'))%nat.
Proof.
  intros Hr Hc HT Hlen Hcpu Htqdm Hfile Hdata Hperm.
  destruct (decorate_fresh (Image:=Image) n_rows n_cols col_labels row_labels Hr Hc)
    as (axes1 & Hdec & Hrect & _).
  assert (Forall (λ t, is_ok (render t.2) = true) (completion h (tasks T data))) as Hok.
  { rewrite Hperm. apply Forall_forall. intros t [_ Ht]%tasks_index.
    rewrite Forall_forall in Hdata. by apply Hdata. }
  destruct (yields_exists _ Hok) as [items Hyields].
  assert (Forall (λ item, 0 ≤ item.1) items) as Hnonneg.
  { apply Forall_forall. intros item Hitem.
    destruct (yields_in_tasks _ _ _ Hyields Hperm Hitem) as (x & [Hi _]%tasks_index & _).
    simpl in Hi. lia. }
  assert (Exists (λ item, n_rows * n_cols ≤ item.1) items) as Hout.
  { destruct (tasks_elem T data (n_rows * n_cols)) as [x Hx]; [nia|lia|].
    rewrite <-Hperm in Hx. apply list_elem_of_lookup in Hx as [n Hn].
    destruct (Forall2_lookup_l _ _ _ _ _ Hyields Hn) as (item & Hitem & Hi & _).
    apply Exists_exists. exists item. split; [by eapply list_elem_of_lookup_2|].
    simpl in Hi. lia. }
  pose proof (assemble_out_of_range switch_axis n_rows n_cols axes1 items
                Hrect Hr Hc Hnonneg Hout) as Hasm.
  rewrite parallel_plot_eq, subplots_fresh, Hdec by done.
  rewrite decide_False by lia. rewrite progress_bar_available by done.
  pose proof (collect_rendered _ _ axes1 (log_pool workers (opened w)) _
                Hyields (opened_cache w Hfile)) as Hres.
  rewrite Hasm in Hres.
  pose (I := λ w' : world (Image:=Image), pools w' = pools w ++ [workers]).
  assert (∀ t w', I w' →
            I (_parallel_plot_worker t plot_fn grid_cell_size preprocessing_fn w').2)
    as Hkeep by (intros t w'; apply worker_pools).
  assert (I (log_pool workers (opened w))) as Hstart.
  { unfold I. simpl. by rewrite opened_pools. }
  pose proof (collect_preserves I Hkeep (completion h (tasks T data)) axes1 _ Hstart)
    as Hpools.
  assert (length (calls w) <
          length (calls (collect h worker_func switch_axis n_rows n_cols
                           (completion h (tasks T data)) axes1
                           (log_pool workers (opened w))).2))%nat as Hcalls.
  { destruct Hyields as [|t item pending items' [_ Hrender] _]; [by apply Exists_nil in Hout|].
    pose proof (collect_calls_grow t pending axes1 (log_pool workers (opened w)) _ Hrender)
      as Hgrow.
    simpl in Hgrow. by rewrite opened_calls in Hgrow. }
  destruct (collect _ _ _ _ _ _ _ _) as [[axes2|e] w3]; simpl in *; [done|].
  simplify_eq. by exists w3.
Qed.

(** C5, as the code has it.  When a task fails in its worker (its
    preprocessing or its plot raises), the call raises and the
    statement after the [with] block is not reached: the cache
    directory is still there when the caller gets the exception,
    whatever [cleanup] says, with at least the entries it had. *)
Theorem failed_task_leaves_cache w i x e :
  0 < n_rows → 0 < n_cols → 1 ≤ cpu_count h →
  cache w ≠ RegularFile →
  completion h (tasks (effective_total total data) data) ≡ₚ tasks (effective_total total data) data →
  (i, x) ∈ tasks (effective_total total data) data →
  rendering plot_fn grid_cell_size preprocessing_fn x = Raise e →
  ∃ e' w' d,
    parallel_plot h plot_fn data (n_rows, n_cols) total preprocessing_fn
      col_labels row_labels grid_cell_size switch_axis cleanup show_progress w
    = (Raise e', w') ∧
    cache w' = Directory d ∧ dom (entries_of (cache w)) ⊆ dom d.
Proof.
  intros Hr Hc Hcpu Hfile Hperm Hin Hraise.
  pose proof (tasks_index _ _ _ Hin) as [HT _]. simpl in HT.
  destruct (decorate_fresh (Image:=Image) n_rows n_cols col_labels row_labels Hr Hc)
    as (axes1 & Hdec & _).
  rewrite parallel_plot_eq, subplots_fresh, Hdec by done.
  rewrite decide_False by lia.
  pose (I := λ w' : world (Image:=Image),
          ∃ d, cache w' = Directory d ∧ dom (entries_of (cache w)) ⊆ dom d).
  assert (∀ t w', I w' →
            I (_parallel_plot_worker t plot_fn grid_cell_size preprocessing_fn w').2)
    as Hkeep by (intros t w'; apply worker_cache_dir).
  assert (I (log_pool workers (opened w))) as Hstart.
  { exists (entries_of (cache w)). split; [|done]. simpl. by apply opened_cache. }
  destruct (show_progress && negb (tqdm_installed h)).
  { destruct (abandon_preserves I (list (list (Axes (Image:=Image)))) Hkeep
                (completion h (tasks T data))
                ImportError _ Hstart) as (d & Hd & Hdom).
    eexists _, _, d. split; [|done]. reflexivity. }
  destruct (collect_raises (completion h (tasks T data)) axes1
              (log_pool workers (opened w)) _ (i, x) e (opened_cache w Hfile))
    as [e' He']; [by rewrite Hperm|done|].
  destruct (collect_preserves I Hkeep (completion h (tasks T data)) axes1 _ Hstart)
    as (d & Hd & Hdom).
  destruct (collect _ _ _ _ _ _ _ _) as [[axes2|e2] w3]; simpl in *; [done|].
  by exists e2, w3, d.
Qed.

(** C8. On normal completion (the call returns its figure; [CACHE_DIR]
    was not a regular file), with [cleanup] the cache directory is
    gone, with everything in it; without [cleanup] it is still a
    directory, it holds the image of every task under the name of the
    task's index, and every other entry is as it was before the call. *)
Theorem cache_after_completion w fig axes w' :
  cache w ≠ RegularFile →
  completion h (tasks (effective_total total data) data) ≡ₚ tasks (effective_total total data) data →
  parallel_plot h plot_fn data (n_rows, n_cols) total preprocessing_fn
      col_labels row_labels grid_cell_size switch_axis cleanup show_progress w
  = (Ok (fig, axes), w') →
  if cleanup then cache w' = Absent
  else ∃ d, cache w' = Directory d ∧
    (∀ i x, (i, x) ∈ tasks (effective_total total data) data →
       ∃ img, rendering plot_fn grid_cell_size preprocessing_fn x = Ok img ∧
              d !! temp_name i = Some img) ∧
    (∀ name, (∀ t, t ∈ tasks (effective_total total data) data → name ≠ temp_name t.1) →
       d !! name = entries_of (cache w) !! name).
Proof.
  intros Hfile Hperm Hrun.
  destruct (run_ok_inv w fig axes w' Hfile Hrun) as (items & Hyields & ->).
  destruct cleanup; simpl; [done|].
  eexists. split; [done|].
  by apply (written_by_tasks (completion h (tasks T data))).
Qed.

(** C7, as the code has it.  A cache directory that exists before the
    call is no error: [os.mkdir] is skipped and the directory is used as
    it is.  When nothing else stands in the way the call returns its
    figure; without [cleanup] the entries that were there are still
    there, except under the names the tasks write, which now hold the
    images of this call; with [cleanup] the directory is removed, old
    entries included. *)
Theorem existing_cache_reused w d0 :
  cache w = Directory d0 →
  0 < n_rows → 0 < n_cols →
  1 ≤ effective_total total data ≤ n_rows * n_cols →
  1 ≤ cpu_count h →
  (show_progress = true → tqdm_installed h = true) →
  Forall (λ x, is_ok (rendering plot_fn grid_cell_size preprocessing_fn x) = true) data →
  completion h (tasks (effective_total total data) data) ≡ₚ tasks (effective_total total data) data →
  ∃ fig axes w',
    parallel_plot h plot_fn data (n_rows, n_cols) total preprocessing_fn
      col_labels row_labels grid_cell_size switch_axis cleanup show_progress w
    = (Ok (fig, axes), w') ∧
    if cleanup then cache w' = Absent
    else ∃ d, cache w' = Directory d ∧
      (∀ name, (∀ t, t ∈ tasks (effective_total total data) data → name ≠ temp_name t.1) →
         d !! name = d0 !! name) ∧
      (∀ i x, (i, x) ∈ tasks (effective_total total data) data →
         ∃ img, rendering plot_fn grid_cell_size preprocessing_fn x = Ok img ∧
                d !! temp_name i = Some img).
Proof.
  intros Hcache Hr Hc HT Hcpu Htqdm Hdata Hperm.
  destruct (run_succeeds w) as (axes1 & items & axes' & _ & Hyields & _ & _ & Hrun);
    [done..|by rewrite Hcache|done|done|].
  rewrite Hrun. eexists _, _, _. split; [done|].
  destruct cleanup; simpl; [done|].
  eexists. split; [done|]. rewrite Hcache. simpl.
  destruct (written_by_tasks _ _ d0 Hyields Hperm) as [Hnew Hold]. by split.
Qed.

(** C9, as the code has it.  Labels of any length are accepted: they
    are paired with the subplots of the first row (the first column)
    by position, labels without a subplot are dropped and subplots
    without a label stay unlabelled.  When nothing else stands in the
    way the call returns, and the subplot in row [i] and column [j] has
    the title [col_labels[j]] if [i = 0] and that label exists, and the
    y label [row_labels[i]] if [j = 0] and that label exists. *)
Theorem labels_applied_by_position w :
  0 < n_rows → 0 < n_cols →
  1 ≤ effective_total total data ≤ n_rows * n_cols →
  1 ≤ cpu_count h →
  (show_progress = true → tqdm_installed h = true) →
  cache w ≠ RegularFile →
  Forall (λ x, is_ok (rendering plot_fn grid_cell_size preprocessing_fn x) = true) data →
  completion h (tasks (effective_total total data) data) ≡ₚ tasks (effective_total total data) data →
  ∃ fig axes w',
    parallel_plot h plot_fn data (n_rows, n_cols) total preprocessing_fn
      col_labels row_labels grid_cell_size switch_axis cleanup show_progress w
    = (Ok (fig, axes), w') ∧
    ∀ i j ax, cell axes i j = Some ax →
      ax_title ax = (if decide (i = 0%nat) then labels ← col_labels; labels !! j else None) ∧
      ax_ylabel ax = (if decide (j = 0%nat) then labels ← row_labels; labels !! i else None).
Proof.
  intros Hr Hc HT Hcpu Htqdm Hfile Hdata Hperm.
  destruct (run_succeeds w) as (axes1 & items & axes' & Hdec & _ & Hrange & Hasm & Hrun);
    [done..|].
  destruct (decorate_fresh (Image:=Image) n_rows n_cols col_labels row_labels Hr Hc)
    as (axes1' & Hdec' & Hrect & Hcells).
  rewrite Hdec in Hdec'. injection Hdec' as <-.
  destruct (assemble_in_range switch_axis n_rows n_cols axes1 items Hrect Hr Hc Hrange)
    as (axes'' & Hasm' & _ & Hkept).
  rewrite Hasm in Hasm'. injection Hasm' as <-.
  rewrite Hrun. eexists _, _, _. split; [done|].
  intros i j ax Hax.
  pose proof (Hkept _ ax_title (λ _ _, eq_refl) i j) as Htitle.
  pose proof (Hkept _ ax_ylabel (λ _ _, eq_refl) i j) as Hylabel.
  rewrite Hax, Hcells in Htitle, Hylabel.
  destruct (decide (Z.of_nat i < n_rows ∧ Z.of_nat j < n_cols)); [|done].
  simpl in *. by simplify_eq.
Qed.

(** ** The worker on its own *)

(** X1. With the cache directory in place, a worker whose task renders
    returns the index and the path [CACHE_DIR/index.temp.png]; reading
    that path back gives the image that was rendered, and no other
    entry of the directory has changed. *)
Theorem worker_round_trip t w d img :
  cache w = Directory d →
  rendering plot_fn grid_cell_size preprocessing_fn t.2 = Ok img →
  ∃ w',
    _parallel_plot_worker t plot_fn grid_cell_size preprocessing_fn w
    = (Ok (t.1, temp_path t.1), w') ∧
    imread (temp_path t.1) w' = (Ok img, w') ∧
    ∀ name, name ≠ temp_name t.1 → entries_of (cache w') !! name = d !! name.
Proof.
  intros Hcache Hrender. rewrite (worker_render_ok _ _ _ _ Hrender Hcache).
  eexists. split; [done|]. split.
  - unfold imread. rewrite in_cache_temp_path. simpl. by rewrite lookup_insert_eq.
  - intros name Hname. simpl. by rewrite lookup_insert_ne.
Qed.

(** X2. A worker whose preprocessing or plot raises passes that
    exception on and writes nothing: the cache is as it was, and
    [plot_fn] has been called exactly when the preprocessing went
    through. *)
Theorem worker_failure_writes_nothing t w e :
  rendering plot_fn grid_cell_size preprocessing_fn t.2 = Raise e →
  ∃ w',
    _parallel_plot_worker t plot_fn grid_cell_size preprocessing_fn w = (Raise e, w') ∧
    cache w' = cache w ∧ pools w' = pools w ∧
    calls w' = if is_ok (preprocessed preprocessing_fn t.2)
               then calls w ++ [t.1] else calls w.
Proof.
  intros Hrender. rewrite worker_eq. unfold rendering in Hrender.
  destruct (preprocessed preprocessing_fn t.2) as [x|e']; simpl in *.
  - rewrite Hrender. by eexists.
  - simplify_eq. by eexists.
Qed.

(** X3. A worker never creates the cache directory: when [CACHE_DIR]
    is absent or a regular file the worker raises, whatever its task,
    and [CACHE_DIR] is as it was. *)
Theorem worker_never_creates_cache t w :
  (∀ d, cache w ≠ Directory d) →
  is_ok (_parallel_plot_worker t plot_fn grid_cell_size preprocessing_fn w).1 = false ∧
  cache (_parallel_plot_worker t plot_fn grid_cell_size preprocessing_fn w).2 = cache w.
Proof.
  intros Hnodir. rewrite worker_eq.
  destruct (preprocessed preprocessing_fn t.2) as [x|e]; [|done].
  destruct (plot_fn x grid_cell_size) as [img|e]; [|done].
  destruct (cache w) as [| |d] eqn:Hcache; [done..|].
  by destruct (Hnodir d).
Qed.

Lemma worker_cache t w :
  cache (_parallel_plot_worker t plot_fn grid_cell_size preprocessing_fn w).2 =
  match render t.2, cache w with
  | Ok img, Directory d => Directory (<[temp_name t.1 := img]> d)
  | _, c => c
  end.
Proof.
  rewrite worker_eq. unfold rendering.
  destruct (preprocessed preprocessing_fn t.2) as [x|e]; simpl; [|done].
  destruct (plot_fn x grid_cell_size) as [img|e]; simpl; [|by destruct (cache w)].
  destruct (cache w) eqn:Hcache; simpl; by rewrite ?Hcache.
Qed.

(** X4. The workers of two tasks with different indices leave the same
    cache directory behind in whichever order they complete. *)
Theorem workers_commute_on_cache t1 t2 w :
  t1.1 ≠ t2.1 →
  cache (_parallel_plot_worker t2 plot_fn grid_cell_size preprocessing_fn
           (_parallel_plot_worker t1 plot_fn grid_cell_size preprocessing_fn w).2).2 =
  cache (_parallel_plot_worker t1 plot_fn grid_cell_size preprocessing_fn
           (_parallel_plot_worker t2 plot_fn grid_cell_size preprocessing_fn w).2).2.
Proof.
  intros Hne. rewrite !worker_cache.
  destruct (render t1.2) as [img1|e1], (render t2.2) as [img2|e2],
    (cache w) as [| |d]; simpl; try done.
  f_equal. apply insert_insert_ne. by intros ?%temp_name_inj.
Qed.

(** ** A call that returns *)

(** The loop that runs to its end, whatever the state of the cache:
    every task has rendered, its image has been written and placed. *)
Lemma collect_returns pending axes axes' w w' :
  collect h worker_func switch_axis n_rows n_cols pending axes w = (Ok axes', w') →
  ∃ items, Forall2 yields pending items ∧
    assemble switch_axis n_rows n_cols axes items = Ok axes' ∧
    pools w' = pools w ∧ calls w' = calls w ++ items.*1 ∧
    cache w' = match pending with
               | [] => cache w
               | _ => Directory (foldl write (entries_of (cache w)) items)
               end.
Proof.
  revert axes w.
  induction pending as [|t pending IH]; intros axes w Hcollect.
  - injection Hcollect as -> ->. exists []. simpl. rewrite app_nil_r.
    by split; [constructor|].
  - rewrite collect_cons, worker_eq in Hcollect. unfold rendering in Hcollect.
    destruct (preprocessed preprocessing_fn t.2) as [x|e] eqn:Hpre; [|done].
    simpl in Hcollect.
    destruct (plot_fn x grid_cell_size) as [img|e] eqn:Hplot; [|done].
    destruct (cache w) as [| |d] eqn:Hcache; [done..|].
    simpl in Hcollect.
    destruct (place _ _ _ axes (t.1, img)) as [axes1|e] eqn:Hplace; [|done].
    apply IH in Hcollect as (items & Hyields & Hasm & Hpools & Hcalls & Hcache').
    exists ((t.1, img) :: items). split.
    { constructor; [|done]. split; [done|]. unfold rendering. by rewrite Hpre. }
    simpl. rewrite Hplace. simpl. split; [done|]. split; [done|].
    split; [by rewrite Hcalls; simpl; rewrite <-app_assoc|].
    rewrite Hcache'. simpl.
    destruct pending; [|done]. by apply Forall2_nil_inv_l in Hyields as ->.
Qed.

(** The call that returns, stage by stage. *)
Lemma run_returns w fig axes' w' :
  run w = (Ok (fig, axes'), w') →
  0 < n_rows ∧ 0 < n_cols ∧ 1 ≤ workers ∧
  fig = MkFigure (n_cols * grid_cell_size.1, n_rows * grid_cell_size.2) ∧
  ∃ axes1 items,
    decorate col_labels row_labels fresh = Ok axes1 ∧
    Forall2 yields (completion h (tasks T data)) items ∧
    assemble switch_axis n_rows n_cols axes1 items = Ok axes' ∧
    pools w' = pools w ++ [workers] ∧ calls w' = calls w ++ items.*1.
Proof.
  intros Hrun. rewrite parallel_plot_eq in Hrun. unfold plt_subplots in Hrun.
  destruct (decide (0 < n_rows ∧ 0 < n_cols)) as [[Hr Hc]|]; [|done].
  destruct (decorate _ _ _) as [axes1|e] eqn:Hdec; [|done].
  case_decide; [done|].
  destruct (show_progress && negb (tqdm_installed h)); [done|].
  destruct (collect _ _ _ _ _ _ _ _) as [[axes2|e] w3] eqn:Hcollect; [|done].
  apply collect_returns in Hcollect as (items & Hyields & Hasm & Hpools & Hcalls & _).
  simpl in Hpools, Hcalls. rewrite opened_pools in Hpools. rewrite opened_calls in Hcalls.
  assert ((Ok (MkFigure (n_cols * grid_cell_size.1, n_rows * grid_cell_size.2), axes2),
           pools w3, calls w3) = (Ok (fig, axes'), pools w', calls w')) as Heq.
  { destruct cleanup; [|by simplify_eq].
    unfold shutil_rmtree in Hrun. destruct (cache w3); by simplify_eq. }
  injection Heq as <- <- <- <-.
  split; [done|]. split; [done|]. split; [lia|]. split; [done|].
  by exists axes1, items.
Qed.

(** The subplots of a call that returns: the subplot the call set up
    at each position of the grid, shown the images mapped there. *)
Lemma returned_cells w fig axes w' :
  completion h (tasks T data) ≡ₚ tasks T data →
  run w = (Ok (fig, axes), w') →
  0 < n_rows ∧ 0 < n_cols ∧
  ∃ items,
    Forall2 yields (completion h (tasks T data)) items ∧
    NoDup items.*1 ∧
    Forall (λ item, 0 ≤ item.1 < n_rows * n_cols) items ∧
    rectangular n_rows n_cols axes ∧
    ∀ i j, cell axes i j =
      if decide (Z.of_nat i < n_rows ∧ Z.of_nat j < n_cols)
      then Some (shown (hits switch_axis n_rows n_cols i j items)
                   (@MkAxes Image
                      (if decide (i = 0%nat) then labels ← col_labels; labels !! j else None)
                      (if decide (j = 0%nat) then labels ← row_labels; labels !! i else None)
                      (Some []) (Some []) false []))
      else None.
Proof.
  intros Hperm Hrun.
  destruct (run_returns _ _ _ _ Hrun)
    as (Hr & Hc & _ & _ & axes1 & items & Hdec & Hyields & Hasm & _).
  destruct (decorate_fresh (Image:=Image) n_rows n_cols col_labels row_labels Hr Hc)
    as (axes1' & Hdec' & Hrect & Hcells).
  rewrite Hdec in Hdec'. injection Hdec' as <-.
  assert (Forall (λ item : Z * Image, 0 ≤ item.1) items) as Hnonneg.
  { apply Forall_forall. intros item Hitem.
    destruct (yields_in_tasks _ _ _ Hyields Hperm Hitem) as (x & [Hi _]%tasks_index & _).
    simpl in Hi. lia. }
  pose proof (assemble_ok_in_range switch_axis n_rows n_cols Hr Hc _ _ _
                Hrect Hnonneg Hasm) as Hrange.
  destruct (assemble_in_range switch_axis n_rows n_cols axes1 items Hrect Hr Hc Hrange)
    as (axes'' & Hasm' & Hrect' & _).
  rewrite Hasm in Hasm'. injection Hasm' as <-.
  split; [done|]. split; [done|]. exists items.
  split; [done|]. split.
  { rewrite (yields_indices _ _ Hyields), Hperm. apply tasks_NoDup. }
  split; [done|]. split; [done|].
  intros i j.
  rewrite (assemble_cell switch_axis n_rows n_cols Hr Hc _ _ _ Hnonneg Hasm), Hcells.
  by case_decide.
Qed.

(** X6. When the call returns, the image of every task is in the
    subplot that the index of the task is mapped to, alone there, and
    a subplot that no task is mapped to holds no image. *)
Theorem returned_layout w fig axes w' :
  completion h (tasks (effective_total total data) data) ≡ₚ tasks (effective_total total data) data →
  parallel_plot h plot_fn data (n_rows, n_cols) total preprocessing_fn
      col_labels row_labels grid_cell_size switch_axis cleanup show_progress w
  = (Ok (fig, axes), w') →
  (∀ i x, (i, x) ∈ tasks (effective_total total data) data →
     ∃ r c img ax,
       grid_cell switch_axis n_rows n_cols i = Ok (Z.of_nat r, Z.of_nat c) ∧
       rendering plot_fn grid_cell_size preprocessing_fn x = Ok img ∧
       cell axes r c = Some ax ∧ ax_images ax = [img]) ∧
  (∀ r c ax, cell axes r c = Some ax →
     (∀ i x, (i, x) ∈ tasks (effective_total total data) data →
        grid_cell switch_axis n_rows n_cols i ≠ Ok (Z.of_nat r, Z.of_nat c)) →
     ax_images ax = []).
Proof.
  intros Hperm Hrun.
  destruct (returned_cells _ _ _ _ Hperm Hrun)
    as (Hr & Hc & items & Hyields & Hnd & Hrange & _ & Hcells).
  split.
  - intros i x Hin. rewrite <-Hperm in Hin.
    apply list_elem_of_lookup in Hin as [n Hn].
    destruct (Forall2_lookup_l _ _ _ _ _ Hyields Hn) as ([i' img] & Hitem & Hi & Hrender).
    simpl in *. subst i'. apply list_elem_of_lookup_2 in Hitem.
    pose proof (proj1 (Forall_forall _ _) Hrange _ Hitem) as Hi. simpl in Hi.
    destruct (grid_cell_nonneg switch_axis n_rows n_cols i)
      as (r & c & Hcell & ? & ? & Hin); [done|done|lia|].
    exists (Z.to_nat r), (Z.to_nat c), img. eexists.
    rewrite !Z2Nat.id by done. split; [done|]. split; [done|].
    rewrite Hcells, decide_True by lia. split; [done|].
    rewrite shown_images. simpl. f_equal.
    apply (hits_singleton switch_axis n_rows n_cols Hr Hc _ _ _ i); [done| |done|].
    + eapply Forall_impl; [done|]. simpl. lia.
    + by rewrite !Z2Nat.id.
  - intros r c ax Hax Hmiss. rewrite Hcells in Hax.
    case_decide; [|done]. injection Hax as <-.
    rewrite shown_images, hits_nil; [done|].
    intros item Hitem.
    destruct (yields_in_tasks _ _ _ Hyields Hperm Hitem) as (x & Hin & _).
    by apply (Hmiss _ x).
Qed.

(** X8. When the call returns, the figure has the size of the grid
    times the size of a cell, the array of subplots has [n_rows] rows
    of [n_cols] subplots, and every subplot is without ticks and
    without visible spines. *)
Theorem returned_figure_shape w fig axes w' :
  completion h (tasks (effective_total total data) data) ≡ₚ tasks (effective_total total data) data →
  parallel_plot h plot_fn data (n_rows, n_cols) total preprocessing_fn
      col_labels row_labels grid_cell_size switch_axis cleanup show_progress w
  = (Ok (fig, axes), w') →
  fig_size fig = (n_cols * grid_cell_size.1, n_rows * grid_cell_size.2) ∧
  rectangular n_rows n_cols axes ∧
  ∀ i j ax, cell axes i j = Some ax →
    ax_xticks ax = Some [] ∧ ax_yticks ax = Some [] ∧ ax_spines_visible ax = false.
Proof.
  intros Hperm Hrun.
  destruct (run_returns _ _ _ _ Hrun) as (_ & _ & _ & -> & _).
  destruct (returned_cells _ _ _ _ Hperm Hrun)
    as (_ & _ & items & _ & _ & _ & Hrect & Hcells).
  split; [done|]. split; [done|].
  intros i j ax Hax. rewrite Hcells in Hax. case_decide; [|done].
  injection Hax as <-.
  by rewrite (shown_kept ax_xticks), (shown_kept ax_yticks),
    (shown_kept ax_spines_visible).
Qed.

(** X9. The call returns only if nothing stood in the way: the grid
    has positive sides, there is at least one task to size the pool
    and one processor, every task has rendered, and every task index
    is inside the grid. *)
Theorem return_means_tasks_fit w fig axes w' :
  completion h (tasks (effective_total total data) data) ≡ₚ tasks (effective_total total data) data →
  parallel_plot h plot_fn data (n_rows, n_cols) total preprocessing_fn
      col_labels row_labels grid_cell_size switch_axis cleanup show_progress w
  = (Ok (fig, axes), w') →
  0 < n_rows ∧ 0 < n_cols ∧ 1 ≤ effective_total total data ∧ 1 ≤ cpu_count h ∧
  ∀ i x, (i, x) ∈ tasks (effective_total total data) data →
    i < n_rows * n_cols ∧ is_ok (rendering plot_fn grid_cell_size preprocessing_fn x) = true.
Proof.
  intros Hperm Hrun.
  destruct (run_returns _ _ _ _ Hrun) as (_ & _ & Hworkers & _).
  destruct (returned_cells _ _ _ _ Hperm Hrun)
    as (Hr & Hc & items & Hyields & _ & Hrange & _).
  split; [done|]. split; [done|]. split; [lia|]. split; [lia|].
  intros i x Hin. rewrite <-Hperm in Hin.
  apply list_elem_of_lookup in Hin as [n Hn].
  destruct (Forall2_lookup_l _ _ _ _ _ Hyields Hn) as (item & Hitem & Hi & Hrender).
  simpl in *. apply list_elem_of_lookup_2 in Hitem.
  rewrite Forall_forall in Hrange. specialize (Hrange _ Hitem).
  rewrite Hrender. split; [lia|done].
Qed.

(** X10. When the call returns, [plot_fn] has been called exactly once
    for every task: the calls on record are the task indices, in some
    order. *)
Theorem plot_fn_called_once_per_task w fig axes w' :
  completion h (tasks (effective_total total data) data) ≡ₚ tasks (effective_total total data) data →
  parallel_plot h plot_fn data (n_rows, n_cols) total preprocessing_fn
      col_labels row_labels grid_cell_size switch_axis cleanup show_progress w
  = (Ok (fig, axes), w') →
  ∃ order, calls w' = calls w ++ order ∧
    order ≡ₚ (tasks (effective_total total data) data).*1 ∧ NoDup order.
Proof.
  intros Hperm Hrun.
  destruct (run_returns _ _ _ _ Hrun)
    as (_ & _ & _ & _ & axes1 & items & _ & Hyields & _ & _ & Hcalls).
  exists items.*1. split; [done|].
  rewrite (yields_indices _ _ Hyields), Hperm. split; [done|]. apply tasks_NoDup.
Qed.

(** ** Any call, however it ends *)

(** What the workers of the tasks with a property [P] keep true of the
    world stays true through a loop over such tasks. *)
Lemma run_unobserved_preserves_for (I : world → Prop) (P : Z * Data → Prop) :
  (∀ t w, P t → I w → I (_parallel_plot_worker t plot_fn grid_cell_size preprocessing_fn w).2) →
  ∀ pending w, Forall P pending → I w → I (run_unobserved worker_func pending w).
Proof.
  intros Hworker pending w Hpending. revert w. unfold run_unobserved.
  induction Hpending as [|t pending Ht _ IH]; intros w Hw; simpl; [done|].
  apply IH. by apply Hworker.
Qed.

Lemma collect_preserves_for (I : world → Prop) (P : Z * Data → Prop) :
  (∀ t w, P t → I w → I (_parallel_plot_worker t plot_fn grid_cell_size preprocessing_fn w).2) →
  ∀ pending axes w, Forall P pending → I w →
    I (collect h worker_func switch_axis n_rows n_cols pending axes w).2.
Proof.
  intros Hworker pending axes w Hpending. revert axes w.
  induction Hpending as [|t pending Ht Hpending IH]; intros axes w Hw; [done|].
  rewrite collect_cons. pose proof (Hworker t w Ht Hw) as Hw'.
  assert (∀ e w1, I w1 →
            I (abandon (A:=list (list (Axes (Image:=Image)))) h worker_func pending e w1).2)
    as Habandon.
  { intros e w1 Hw1. unfold abandon. simpl.
    apply (run_unobserved_preserves_for I P Hworker); [by apply Forall_take|done]. }
  destruct (_parallel_plot_worker _ _ _ _ _) as [[?|e] w1]; simpl in Hw'.
  - destruct (render t.2 ≫= _) as [axes1|e]; [by apply IH|by apply Habandon].
  - by apply Habandon.
Qed.

Lemma worker_calls_eq t w :
  calls (_parallel_plot_worker t plot_fn grid_cell_size preprocessing_fn w).2 =
  if is_ok (preprocessed preprocessing_fn t.2) then calls w ++ [t.1] else calls w.
Proof.
  rewrite worker_eq.
  destruct (preprocessed preprocessing_fn t.2) as [x|e]; simpl; [|done].
  destruct (plot_fn x grid_cell_size) as [img|e]; [|done]. by destruct (cache w).
Qed.

(** X11. However the call ends, [plot_fn] is called for tasks only:
    every index it is called for is the position of a data item below
    [total].  Data items from position [total] on are never plotted. *)
Theorem plot_fn_called_for_tasks_only w i :
  completion h (tasks (effective_total total data) data) ≡ₚ tasks (effective_total total data) data →
  i ∈ calls (parallel_plot h plot_fn data (n_rows, n_cols) total preprocessing_fn
      col_labels row_labels grid_cell_size switch_axis cleanup show_progress w).2 →
  i ∈ calls w ∨
  (0 ≤ i < effective_total total data ∧ i < Z.of_nat (length data)).
Proof.
  intros Hperm.
  pose (P := λ t : Z * Data, 0 ≤ t.1 < T ∧ t.1 < Z.of_nat (length data)).
  pose (I := λ w' : world (Image:=Image),
          ∀ k, k ∈ calls w' → k ∈ calls w ∨ (0 ≤ k < T ∧ k < Z.of_nat (length data))).
  assert (∀ t w', P t → I w' → I (_parallel_plot_worker t plot_fn grid_cell_size preprocessing_fn w').2) as Hkeep.
  { intros t w' Ht Hw' k. rewrite worker_calls_eq.
    destruct (is_ok _); [|by apply Hw'].
    intros [Hk|Hk]%elem_of_app; [by apply Hw'|].
    apply list_elem_of_singleton in Hk as ->. by right. }
  assert (Forall P (completion h (tasks T data))) as Hpending.
  { rewrite Hperm. apply Forall_forall. intros [k x] [n Hn]%list_elem_of_lookup.
    apply tasks_lookup in Hn as (-> & ? & Hx%lookup_lt_Some). unfold P. simpl. lia. }
  assert (I (opened w)) as Hopened.
  { intros k. rewrite opened_calls. by left. }
  intros Hi. apply (λ H, H i Hi). clear Hi.
  rewrite parallel_plot_eq.
  destruct (plt_subplots _ _ _) as [[fig0 axes0]|e]; [|done].
  destruct (decorate _ _ _) as [axes1|e]; [|done].
  case_decide; [done|].
  destruct (show_progress && negb (tqdm_installed h)).
  { unfold abandon. simpl.
    apply (run_unobserved_preserves_for I P Hkeep); [by apply Forall_take|done]. }
  pose proof (collect_preserves_for I P Hkeep (completion h (tasks T data)) axes1
                (log_pool workers (opened w)) Hpending Hopened) as Hloop.
  destruct (collect _ _ _ _ _ _ _ _) as [[axes2|e] w3]; simpl in Hloop; [|done].
  destruct cleanup; [|done].
  unfold shutil_rmtree. by destruct (cache w3).
Qed.

(** X12. An exception never cleans up.  With [CACHE_DIR] absent or a
    directory before the call, a call that raises, at whatever stage,
    leaves [CACHE_DIR] behind as a directory with at least the entries
    it had; in particular a call rejected for its arguments has already
    created the directory. *)
Theorem failure_leaves_cache w e w' :
  cache w ≠ RegularFile →
  parallel_plot h plot_fn data (n_rows, n_cols) total preprocessing_fn
      col_labels row_labels grid_cell_size switch_axis cleanup show_progress w
  = (Raise e, w') →
  ∃ d, cache w' = Directory d ∧ dom (entries_of (cache w)) ⊆ dom d.
Proof.
  intros Hfile.
  pose (I := λ w1 : world (Image:=Image),
          ∃ d, cache w1 = Directory d ∧ dom (entries_of (cache w)) ⊆ dom d).
  assert (∀ t w1, I w1 → I (_parallel_plot_worker t plot_fn grid_cell_size preprocessing_fn w1).2)
    as Hkeep by (intros t w1; apply worker_cache_dir).
  assert (I (opened w)) as Hopened.
  { exists (entries_of (cache w)). split; [by apply opened_cache|done]. }
  assert (I (log_pool workers (opened w))) as Hstart by done.
  rewrite parallel_plot_eq.
  destruct (plt_subplots _ _ _) as [[fig0 axes0]|e0]; [|by intros [= _ <-]].
  destruct (decorate _ _ _) as [axes1|e0]; [|by intros [= _ <-]].
  case_decide; [by intros [= _ <-]|].
  destruct (show_progress && negb (tqdm_installed h)).
  { intros [= _ <-]. by apply run_unobserved_preserves. }
  pose proof (collect_preserves I Hkeep (completion h (tasks T data)) axes1 _ Hstart)
    as Hloop.
  destruct (collect _ _ _ _ _ _ _ _) as [[axes2|e0] w3]; simpl in Hloop;
    [|by intros [= _ <-]].
  destruct cleanup; [|done].
  destruct Hloop as (d & Hd & _). unfold shutil_rmtree. by rewrite Hd.
Qed.

(** X13. The progress bar is imported inside the [with] block: with
    [show_progress] and no [tqdm], a call that got as far as its pool
    raises [ImportError] after the pool has been created. *)
Theorem progress_bar_missing w :
  0 < n_rows → 0 < n_cols → 1 ≤ effective_total total data → 1 ≤ cpu_count h →
  show_progress = true → tqdm_installed h = false →
  ∃ w',
    parallel_plot h plot_fn data (n_rows, n_cols) total preprocessing_fn
      col_labels row_labels grid_cell_size switch_axis cleanup show_progress w
    = (Raise ImportError, w') ∧
    pools w' = pools w ++ [Z.min (effective_total total data) (cpu_count h)].
Proof.
  intros Hr Hc HT Hcpu Hshow Htqdm.
  destruct (decorate_fresh (Image:=Image) n_rows n_cols col_labels row_labels Hr Hc)
    as (axes1 & Hdec & _).
  rewrite parallel_plot_eq, subplots_fresh, Hdec by done.
  rewrite decide_False by lia. rewrite Hshow, Htqdm. simpl.
  eexists. split; [done|].
  apply (run_unobserved_preserves (λ w', pools w' = pools w ++ [workers])).
  - intros t w'. apply worker_pools.
  - simpl. by rewrite opened_pools.
Qed.

(** X14. A regular file in the place of [CACHE_DIR] passes the test of
    line 58, so no directory is made; the first worker to save its
    figure then fails.  With at least one task, all tasks rendering,
    the call raises [NotADirectoryError] and the file is untouched. *)
Theorem regular_file_in_place_of_cache w :
  cache w = RegularFile →
  0 < n_rows → 0 < n_cols → 1 ≤ effective_total total data → 1 ≤ cpu_count h →
  (show_progress = true → tqdm_installed h = true) →
  data ≠ [] →
  Forall (λ x, is_ok (rendering plot_fn grid_cell_size preprocessing_fn x) = true) data →
  completion h (tasks (effective_total total data) data) ≡ₚ tasks (effective_total total data) data →
  ∃ w',
    parallel_plot h plot_fn data (n_rows, n_cols) total preprocessing_fn
      col_labels row_labels grid_cell_size switch_axis cleanup show_progress w
    = (Raise NotADirectoryError, w') ∧
    cache w' = RegularFile.
Proof.
  intros Hcache Hr Hc HT Hcpu Htqdm Hdata Hrender Hperm.
  destruct (decorate_fresh (Image:=Image) n_rows n_cols col_labels row_labels Hr Hc)
    as (axes1 & Hdec & _).
  rewrite parallel_plot_eq, subplots_fresh, Hdec by done.
  rewrite decide_False by lia. rewrite progress_bar_available by done.
  assert (opened w = w) as -> by (by rewrite Hcache).
  destruct (completion h (tasks T data)) as [|t pending] eqn:Hpending.
  { assert (length data ≠ 0%nat) as Hlen by (by intros ?%nil_length_inv).
    destruct (tasks_elem T data 0) as [x0 Hx0]; [lia|lia|].
    rewrite <-Hperm in Hx0. by apply elem_of_nil in Hx0. }
  assert (t ∈ tasks T data) as [_ Ht]%tasks_index by (rewrite <-Hperm; left).
  rewrite Forall_forall in Hrender. specialize (Hrender _ Ht).
  rewrite collect_cons, worker_eq. unfold rendering in Hrender.
  destruct (preprocessed preprocessing_fn t.2) as [x|?]; simpl in Hrender; [|done].
  destruct (plot_fn x grid_cell_size) as [img|?]; [|done].
  simpl. rewrite Hcache.
  eexists. split; [done|].
  apply (run_unobserved_preserves (λ w', cache w' = RegularFile)); [|done].
  intros t' w' Hw'. by rewrite worker_cache, Hw'; destruct (render t'.2).
Qed.

Lemma tasks_take (t : Z) :
  tasks t (take (Z.to_nat t) data) = tasks t data.
Proof.
  unfold tasks, zip. rewrite <-(length_seqZ 0 t) at 1. apply zip_with_take_r.
Qed.

(** X15. With an explicit [total], the data items from position
    [total] on play no part: the call goes exactly as it does on the
    first [total] items alone. *)
Theorem data_beyond_total_ignored (t : Z) w :
  parallel_plot h plot_fn data (n_rows, n_cols) (Some t) preprocessing_fn
    col_labels row_labels grid_cell_size switch_axis cleanup show_progress w =
  parallel_plot h plot_fn (take (Z.to_nat t) data) (n_rows, n_cols) (Some t)
    preprocessing_fn col_labels row_labels grid_cell_size switch_axis cleanup
    show_progress w.
Proof. unfold parallel_plot, effective_total. by rewrite tasks_take. Qed.

(** X16. However the call ends, it creates at most one pool, and it
    creates one exactly when the grid has positive sides and
    [min (total, cpu_count)] is at least one; the pool then has that
    size. *)
Theorem pool_created_iff w :
  pools (parallel_plot h plot_fn data (n_rows, n_cols) total preprocessing_fn
      col_labels row_labels grid_cell_size switch_axis cleanup show_progress w).2 =
  if decide (0 < n_rows ∧ 0 < n_cols ∧
             1 ≤ Z.min (effective_total total data) (cpu_count h))
  then pools w ++ [Z.min (effective_total total data) (cpu_count h)]
  else pools w.
Proof.
  rewrite parallel_plot_eq. unfold plt_subplots.
  destruct (decide (0 < n_rows ∧ 0 < n_cols)) as [[Hr Hc]|Hgrid].
  2: { rewrite decide_False by tauto. simpl. apply opened_pools. }
  destruct (decorate_fresh (Image:=Image) n_rows n_cols col_labels row_labels Hr Hc)
    as (axes1 & Hdec & _).
  rewrite Hdec.
  destruct (decide (workers < 1)) as [Hfew|Hpool].
  { rewrite decide_False by lia. simpl. apply opened_pools. }
  rewrite decide_True by (split; [done|split; [done|lia]]).
  pose (I := λ w' : world (Image:=Image), pools w' = pools w ++ [workers]).
  assert (∀ t w', I w' → I (_parallel_plot_worker t plot_fn grid_cell_size preprocessing_fn w').2)
    as Hkeep by (intros t w'; apply worker_pools).
  assert (I (log_pool workers (opened w))) as Hstart.
  { unfold I. simpl. by rewrite opened_pools. }
  destruct (show_progress && negb (tqdm_installed h)).
  { by apply (abandon_preserves I). }
  pose proof (collect_preserves I Hkeep (completion h (tasks T data)) axes1 _ Hstart)
    as Hloop.
  destruct (collect _ _ _ _ _ _ _ _) as [[axes2|e] w3]; simpl in Hloop; [|done].
  destruct cleanup; [|done].
  unfold shutil_rmtree. by destruct (cache w3).
Qed.

(** ** The same call under another schedule *)

Lemma tasks_items pending items k x :
  Forall2 yields pending items → pending ≡ₚ tasks T data →
  (k, x) ∈ tasks T data →
  ∃ img, (k, img) ∈ items ∧ render x = Ok img.
Proof.
  intros Hyields Hperm Hin. rewrite <-Hperm in Hin.
  apply list_elem_of_lookup in Hin as [n Hn].
  destruct (Forall2_lookup_l _ _ _ _ _ Hyields Hn) as ([k' img] & Hitem & Hk & Hrender).
  simpl in *. subst k'. exists img. split; [|done].
  by eapply list_elem_of_lookup_2.
Qed.

Lemma yields_nonneg pending items :
  Forall2 yields pending items → pending ≡ₚ tasks T data →
  NoDup items.*1 ∧ Forall (λ item, 0 ≤ item.1) items.
Proof.
  intros Hyields Hperm. split.
  - rewrite (yields_indices _ _ Hyields), Hperm. apply tasks_NoDup.
  - apply Forall_forall. intros item Hitem.
    destruct (yields_in_tasks _ _ _ Hyields Hperm Hitem) as (x & [Hi _]%tasks_index & _).
    simpl in Hi. lia.
Qed.

(** The images mapped to a position do not depend on the order in
    which the tasks completed. *)
Lemma hits_same pending1 pending2 items1 items2 i j :
  0 < n_rows → 0 < n_cols →
  Forall2 yields pending1 items1 → Forall2 yields pending2 items2 →
  pending1 ≡ₚ tasks T data → pending2 ≡ₚ tasks T data →
  hits switch_axis n_rows n_cols i j items1 = hits switch_axis n_rows n_cols i j items2.
Proof.
  intros Hr Hc Hy1 Hy2 Hp1 Hp2.
  destruct (yields_nonneg _ _ Hy1 Hp1) as [Hnd1 Hnn1].
  destruct (yields_nonneg _ _ Hy2 Hp2) as [Hnd2 Hnn2].
  destruct (decide (Exists (λ item : Z * Image,
              grid_cell switch_axis n_rows n_cols item.1 = Ok (Z.of_nat i, Z.of_nat j))
              items1)) as [Hhit|Hmiss].
  - apply Exists_exists in Hhit as ([k img] & Hin1 & Hcell). simpl in Hcell.
    destruct (yields_in_tasks _ _ _ Hy1 Hp1 Hin1) as (x & Htask & Hrender).
    destruct (tasks_items _ _ _ _ Hy2 Hp2 Htask) as (img2 & Hin2 & Hrender2).
    simpl in *. assert (img2 = img) as -> by congruence.
    rewrite (hits_singleton switch_axis n_rows n_cols Hr Hc i j items1 k img),
      (hits_singleton switch_axis n_rows n_cols Hr Hc i j items2 k img); done.
  - rewrite !(hits_nil switch_axis n_rows n_cols); [done| |].
    + intros item2 Hin2 Hcell.
      destruct (yields_in_tasks _ _ _ Hy2 Hp2 Hin2) as (x & Htask & _).
      destruct (tasks_items _ _ _ _ Hy1 Hp1 Htask) as (img1 & Hin1 & _).
      apply Hmiss, Exists_exists. by exists (item2.1, img1).
    + intros item1 Hin1 Hcell. apply Hmiss, Exists_exists. by exists item1.
Qed.

(** Nor does the cache directory that the workers leave. *)
Lemma written_same pending1 pending2 items1 items2 d :
  Forall2 yields pending1 items1 → Forall2 yields pending2 items2 →
  pending1 ≡ₚ tasks T data → pending2 ≡ₚ tasks T data →
  foldl write d items1 = foldl write d items2.
Proof.
  intros Hy1 Hy2 Hp1 Hp2. apply map_eq. intros name.
  destruct (written_by_tasks _ _ d Hy1 Hp1) as [Hnew1 Hold1].
  destruct (written_by_tasks _ _ d Hy2 Hp2) as [Hnew2 Hold2].
  destruct (decide (Exists (λ t : Z * Data, name = temp_name t.1) (tasks T data)))
    as [Htask|Hother].
  - apply Exists_exists in Htask as ([k x] & Hin & ->). simpl.
    destruct (Hnew1 _ _ Hin) as (img1 & Hr1 & ->).
    destruct (Hnew2 _ _ Hin) as (img2 & Hr2 & ->). congruence.
  - rewrite Hold1, Hold2; [done| |];
      intros t Ht ->; apply Hother, Exists_exists; by exists t.
Qed.

(** The call returns as soon as its tasks render and fit the grid. *)
Lemma run_succeeds_tasks w :
  0 < n_rows → 0 < n_cols → 1 ≤ workers →
  (show_progress = true → tqdm_installed h = true) →
  cache w ≠ RegularFile →
  Forall (λ t, t.1 < n_rows * n_cols ∧ is_ok (render t.2) = true) (tasks T data) →
  completion h (tasks T data) ≡ₚ tasks T data →
  ∃ axes1 items axes',
    decorate col_labels row_labels fresh = Ok axes1 ∧
    Forall2 yields (completion h (tasks T data)) items ∧
    assemble switch_axis n_rows n_cols axes1 items = Ok axes' ∧
    run w =
    (Ok (MkFigure (n_cols * grid_cell_size.1, n_rows * grid_cell_size.2), axes'),
     World (if cleanup then Absent
            else Directory (foldl write (entries_of (cache w)) items))
           (pools w ++ [workers]) (calls w ++ items.*1)).
Proof.
  intros Hr Hc Hworkers Htqdm Hfile Htasks Hperm.
  destruct (decorate_fresh (Image:=Image) n_rows n_cols col_labels row_labels Hr Hc)
    as (axes1 & Hdec & Hrect & _).
  assert (Forall (λ t, is_ok (render t.2) = true) (completion h (tasks T data))) as Hok.
  { rewrite Hperm. eapply Forall_impl; [done|]. by intros t [_ ?]. }
  destruct (yields_exists _ Hok) as [items Hyields].
  assert (Forall (λ item, 0 ≤ item.1 < n_rows * n_cols) items) as Hrange.
  { apply Forall_forall. intros item Hitem.
    destruct (yields_in_tasks _ _ _ Hyields Hperm Hitem) as (x & Hin & _).
    pose proof (tasks_index _ _ _ Hin) as [Hi _].
    rewrite Forall_forall in Htasks. destruct (Htasks _ Hin) as [Hlt _].
    simpl in *. lia. }
  destruct (assemble_in_range switch_axis n_rows n_cols axes1 items Hrect Hr Hc Hrange)
    as (axes' & Hasm & _ & _).
  exists axes1, items, axes'. split; [done|]. split; [done|]. split; [done|].
  rewrite parallel_plot_eq, subplots_fresh, Hdec by done.
  rewrite decide_False by lia. rewrite progress_bar_available by done.
  erewrite collect_rendered_ok; [|done|by apply opened_cache|done].
  simpl. rewrite opened_pools, opened_calls.
  by destruct cleanup.
Qed.

Lemma run_returns_progress w fig axes' w' :
  run w = (Ok (fig, axes'), w') →
  show_progress && negb (tqdm_installed h) = false.
Proof.
  intros Hrun. rewrite parallel_plot_eq in Hrun.
  destruct (plt_subplots _ _ _) as [[fig0 axes0]|e]; [|done].
  destruct (decorate _ _ _) as [axes1|e]; [|done].
  case_decide; [done|].
  by destruct (show_progress && negb (tqdm_installed h)).
Qed.

End Program.

(** ** Two schedules *)

Section Schedules.
Context {Data Image : Type}.
Variables (h1 h2 : host (Data:=Data))
          (plot_fn : plot_callback (Data:=Data) (Image:=Image))
          (data : list Data) (n_rows n_cols : Z) (total : option Z)
          (preprocessing_fn : option (preprocessing_callback (Data:=Data)))
          (col_labels row_labels : option (list string))
          (grid_cell_size : Z * Z) (switch_axis cleanup show_progress : bool).

(** X7. The result does not depend on the schedule.  On two hosts
    with the same processor count and the same progress bar, whose
    pools complete the tasks in different orders and are terminated at
    different moments, a call that returns on one returns on the other
    with the same figure and the same subplots, leaves the same cache
    and the same pool behind, and has made the same calls to [plot_fn],
    in another order. *)
Theorem result_independent_of_schedule w fig axes w1 :
  cpu_count h2 = cpu_count h1 →
  tqdm_installed h2 = tqdm_installed h1 →
  completion h1 (tasks (effective_total total data) data)
    ≡ₚ tasks (effective_total total data) data →
  completion h2 (tasks (effective_total total data) data)
    ≡ₚ tasks (effective_total total data) data →
  cache w ≠ RegularFile →
  parallel_plot h1 plot_fn data (n_rows, n_cols) total preprocessing_fn
    col_labels row_labels grid_cell_size switch_axis cleanup show_progress w
  = (Ok (fig, axes), w1) →
  ∃ w2,
    parallel_plot h2 plot_fn data (n_rows, n_cols) total preprocessing_fn
      col_labels row_labels grid_cell_size switch_axis cleanup show_progress w
    = (Ok (fig, axes), w2) ∧
    cache w2 = cache w1 ∧ pools w2 = pools w1 ∧ calls w2 ≡ₚ calls w1.
Proof.
  intros Hcpu Htqdm Hp1 Hp2 Hfile Hrun1.
  destruct (run_returns _ _ _ _ _ _ _ _ _ _ _ _ _ _ _ _ _ Hrun1)
    as (Hr & Hc & Hworkers & -> & _).
  pose proof (run_returns_progress _ _ _ _ _ _ _ _ _ _ _ _ _ _ _ _ _ Hrun1) as Hprogress.
  destruct (returned_cells _ _ _ _ _ _ _ _ _ _ _ _ _ _ _ _ _ Hp1 Hrun1)
    as (_ & _ & items1 & Hy1 & _ & Hrange1 & Hrect1 & Hcells1).
  destruct (run_ok_inv _ _ _ _ _ _ _ _ _ _ _ _ _ _ _ _ _ Hfile Hrun1)
    as (items1' & Hy1' & ->).
  destruct (run_succeeds_tasks h2 plot_fn grid_cell_size preprocessing_fn switch_axis
              n_rows n_cols data total col_labels row_labels cleanup show_progress w)
    as (axes1 & items2 & axes2 & _ & Hy2 & _ & Hrun2); [done|done| | |done| |done|].
  { rewrite Hcpu. lia. }
  { rewrite Htqdm. intros ->. by destruct (tqdm_installed h1). }
  { apply Forall_forall. intros [k x] Hin.
    destruct (tasks_items _ _ _ _ _ _ _ _ _ Hy1 Hp1 Hin) as (img & Hitem & Hrender).
    rewrite Forall_forall in Hrange1. specialize (Hrange1 _ Hitem).
    simpl in *. rewrite Hrender. split; [lia|done]. }
  destruct (returned_cells _ _ _ _ _ _ _ _ _ _ _ _ _ _ _ _ _ Hp2 Hrun2)
    as (_ & _ & items2' & Hy2' & _ & _ & Hrect2 & Hcells2).
  assert (axes2 = axes) as ->.
  { apply (cell_ext n_rows n_cols); [done|done|]. intros i j.
    rewrite Hcells1, Hcells2. case_decide; [|done]. do 2 f_equal.
    by apply (hits_same plot_fn grid_cell_size preprocessing_fn switch_axis
                n_rows n_cols data total
                (completion h2 (tasks (effective_total total data) data))
                (completion h1 (tasks (effective_total total data) data))). }
  eexists. split; [exact Hrun2|]. simpl. split; [|split].
  - destruct cleanup; [done|]. f_equal.
    by apply (written_same plot_fn grid_cell_size preprocessing_fn data total
                (completion h2 (tasks (effective_total total data) data))
                (completion h1 (tasks (effective_total total data) data))).
  - by rewrite Hcpu.
  - rewrite (yields_indices _ _ _ _ _ Hy2), (yields_indices _ _ _ _ _ Hy1').
    by rewrite Hp1, Hp2.
Qed.

End Schedules.

(** * The claims on sample inputs *)

Lemma grid_cell_formulas_witness :
  grid_cell false 2 3 4 = Ok (4 `div` 3, 4 `mod` 3) ∧
  grid_cell true 2 3 4 = Ok (4 `mod` 2, 4 `div` 2).
Proof. apply (grid_cell_formulas 2 3 4); lia. Defined.

Lemma grid_cell_bijection_witness :
  (∀ index, 0 ≤ index < 2 * 3 →
     ∃ r c, grid_cell true 2 3 index = Ok (r, c) ∧ 0 ≤ r < 2 ∧ 0 ≤ c < 3) ∧
  (∀ i j, 0 ≤ i < 2 * 3 → 0 ≤ j < 2 * 3 →
     grid_cell true 2 3 i = grid_cell true 2 3 j → i = j) ∧
  (∀ r c, 0 ≤ r < 2 → 0 ≤ c < 3 →
     ∃ index, 0 ≤ index < 2 * 3 ∧ grid_cell true 2 3 index = Ok (r, c)).
Proof. apply (grid_cell_bijection true 2 3); lia. Defined.

Lemma assemble_order_independent_witness :
  assemble true 2 3 sample_axes [(0, 10); (4, 50); (3, 40)] =
  assemble true 2 3 sample_axes [(3, 40); (0, 10); (4, 50)].
Proof.
  apply assemble_order_independent.
  - lia.
  - lia.
  - repeat constructor; simpl; lia.
  - apply (bool_decide_unpack _). reflexivity.
  - symmetry. apply (Permutation_cons_append [(0, 10); (4, 50)] (3, 40)).
Defined.

Lemma pool_size_witness :
  pools (parallel_plot sample_host sample_plot [1; 2; 3; 4; 5; 6] (2, 3) None None
           None None (6, 12) false true true no_cache).2 = [4] ∧
  Z.min 6 4 ≤ 6 ∧ Z.min 6 4 ≤ 4.
Proof.
  apply (pool_size sample_host sample_plot (6, 12) None false 2 3
           [1; 2; 3; 4; 5; 6] None None None true true no_cache);
    simpl; lia.
Defined.

Lemma empty_input_raises_witness :
  ∃ w', parallel_plot sample_host sample_plot [] (2, 3) None None None None
          (6, 12) false true true no_cache = (Raise ValueError, w') ∧
        pools w' = [] ∧ calls w' = [].
Proof.
  apply (empty_input_raises sample_host sample_plot (6, 12) None false 2 3
           [] None None None true true no_cache).
  reflexivity.
Defined.

(** C4 does not hold: two tasks on a grid of one cell.  A pool of two
    processes is created, [plot_fn] is called for both tasks, and the
    exception is the [IndexError] of the subscript. *)
Lemma oversized_total_counterexample :
  let r := parallel_plot sample_host sample_plot [1; 2] (1, 1) None None None None
             (6, 12) false true true no_cache in
  r.1 = Raise IndexError ∧ pools r.2 = [2] ∧ calls r.2 = [1; 0].
Proof. vm_compute. done. Qed.

Lemma oversized_total_raises_in_loop_witness :
  ∃ w', parallel_plot sample_host sample_plot [1; 2] (1, 1) None None None None
          (6, 12) false true true no_cache = (Raise IndexError, w') ∧
        pools w' = [] ++ [Z.min 2 4] ∧ (0 < length (calls w'))%nat.
Proof.
  apply (oversized_total_raises_in_loop sample_host sample_plot (6, 12) None false 1 1
           [1; 2] None None None true true no_cache).
  - lia.
  - lia.
  - simpl. lia.
  - simpl. lia.
  - simpl. lia.
  - reflexivity.
  - discriminate.
  - repeat constructor.
  - apply reverse_Permutation.
Defined.

(** C5 does not hold: the fourth of six items does not render, and
    [cleanup] is true.  The caller gets the exception of the plot, and
    the cache directory is left behind with the images written so far. *)
Lemma failed_task_counterexample :
  let r := parallel_plot sample_host sample_plot [1; 2; 3; -1; 5; 6] (2, 3) None None
             None None (6, 12) false true true no_cache in
  r.1 = Raise (CallbackError "negative") ∧
  cache r.2 = Directory {[ "5.temp.png" := 60; "4.temp.png" := 50; "2.temp.png" := 30 ]}.
Proof. vm_compute. done. Qed.

Lemma failed_task_leaves_cache_witness :
  ∃ e' w' d,
    parallel_plot sample_host sample_plot [1; 2; 3; -1; 5; 6] (2, 3) None None
      None None (6, 12) false true true no_cache = (Raise e', w') ∧
    cache w' = Directory d ∧ dom (entries_of (cache no_cache)) ⊆ dom d.
Proof.
  apply (failed_task_leaves_cache sample_host sample_plot (6, 12) None false 2 3
           [1; 2; 3; -1; 5; 6] None None None true true no_cache
           3 (-1) (CallbackError "negative")).
  - lia.
  - lia.
  - simpl. lia.
  - discriminate.
  - apply reverse_Permutation.
  - apply list_elem_of_lookup. by exists 3%nat.
  - reflexivity.
Defined.

(** C7 does not hold: the cache directory exists before the call, with
    a stale image and a file of somebody else.  The call returns its
    figure; the stale image has been overwritten, the other file is
    still there. *)
Lemma existing_cache_counterexample :
  let r := parallel_plot sample_host sample_plot [1; 2] (1, 2) None None None None
             (6, 12) false false true old_cache in
  is_ok r.1 = true ∧
  cache r.2 = Directory {[ "0.temp.png" := 10; "1.temp.png" := 20; "notes.txt" := 7 ]}.
Proof. vm_compute. done. Qed.

Lemma existing_cache_reused_witness :
  ∃ fig axes w',
    parallel_plot sample_host sample_plot [1; 2] (1, 2) None None None None
      (6, 12) false false true old_cache = (Ok (fig, axes), w') ∧
    ∃ d, cache w' = Directory d ∧
      (∀ name, (∀ t, t ∈ tasks 2 [1; 2] → name ≠ temp_name t.1) →
         d !! name = ({[ "0.temp.png" := 99; "notes.txt" := 7 ]} : gmap string Z) !! name) ∧
      (∀ i x, (i, x) ∈ tasks 2 [1; 2] →
         ∃ img, rendering sample_plot (6, 12) None x = Ok img ∧
                d !! temp_name i = Some img).
Proof.
  apply (existing_cache_reused sample_host sample_plot (6, 12) None false 1 2
           [1; 2] None None None false true old_cache
           {[ "0.temp.png" := 99; "notes.txt" := 7 ]}).
  - reflexivity.
  - lia.
  - lia.
  - simpl. lia.
  - simpl. lia.
  - reflexivity.
  - repeat constructor.
  - apply reverse_Permutation.
Defined.

Lemma cache_after_completion_witness :
  cache (parallel_plot sample_host sample_plot [1; 2; 3; 4; 5; 6] (2, 3) None None
           None None (6, 12) false true true no_cache).2 = Absent.
Proof.
  destruct (parallel_plot sample_host sample_plot [1; 2; 3; 4; 5; 6] (2, 3) None None
              None None (6, 12) false true true no_cache)
    as [[[fig axes]|e] w'] eqn:Hrun; [|by vm_compute in Hrun].
  apply (cache_after_completion sample_host sample_plot (6, 12) None false 2 3
           [1; 2; 3; 4; 5; 6] None None None true true no_cache fig axes w').
  - discriminate.
  - apply reverse_Permutation.
  - exact Hrun.
Defined.

(** C9 does not hold: one column label for two columns and three row
    labels for one row.  The call returns its figure; the first subplot
    has its title and its y label, the second has neither. *)
Lemma label_mismatch_counterexample :
  (parallel_plot sample_host sample_plot [1; 2] (1, 2) None None
     (Some ["a"]) (Some ["x"; "y"; "z"]) (6, 12) false true true no_cache).1 =
  Ok (MkFigure (12, 12),
      [[MkAxes (Some "a") (Some "x") (Some []) (Some []) false [10];
        MkAxes None None (Some []) (Some []) false [20]]]).
Proof. vm_compute. done. Qed.

Lemma labels_applied_by_position_witness :
  ∃ fig axes w',
    parallel_plot sample_host sample_plot [1; 2] (1, 2) None None
      (Some ["a"]) (Some ["x"; "y"; "z"]) (6, 12) false true true no_cache
    = (Ok (fig, axes), w') ∧
    ∀ i j ax, cell axes i j = Some ax →
      ax_title ax = (if decide (i = 0%nat) then ["a"] !! j else None) ∧
      ax_ylabel ax = (if decide (j = 0%nat) then ["x"; "y"; "z"] !! i else None).
Proof.
  apply (labels_applied_by_position sample_host sample_plot (6, 12) None false 1 2
           [1; 2] None (Some ["a"]) (Some ["x"; "y"; "z"]) true true no_cache).
  - lia.
  - lia.
  - simpl. lia.
  - simpl. lia.
  - reflexivity.
  - discriminate.
  - repeat constructor.
  - apply reverse_Permutation.
Defined.

(** * Further properties on sample inputs *)

Lemma temp_path_distinct_witness : temp_path 1 ≠ temp_path 10.
Proof. apply temp_path_distinct. lia. Defined.

Lemma worker_round_trip_witness :
  ∃ w',
    _parallel_plot_worker (0, 4) sample_plot (6, 12) None old_cache
    = (Ok (0, temp_path 0), w') ∧
    imread (temp_path 0) w' = (Ok 40, w') ∧
    ∀ name, name ≠ temp_name 0 →
      entries_of (cache w') !! name
      = ({[ "0.temp.png" := 99; "notes.txt" := 7 ]} : gmap string Z) !! name.
Proof.
  apply (worker_round_trip sample_plot (6, 12) None (0, 4) old_cache
           {[ "0.temp.png" := 99; "notes.txt" := 7 ]} 40).
  - reflexivity.
  - reflexivity.
Defined.

Lemma worker_failure_writes_nothing_witness :
  ∃ w',
    _parallel_plot_worker (3, -1) sample_plot (6, 12) None old_cache
    = (Raise (CallbackError "negative"), w') ∧
    cache w' = cache old_cache ∧ pools w' = pools old_cache ∧
    calls w' = calls old_cache ++ [3].
Proof.
  apply (worker_failure_writes_nothing sample_plot (6, 12) None (3, -1) old_cache
           (CallbackError "negative")).
  reflexivity.
Defined.

Lemma worker_never_creates_cache_witness :
  is_ok (_parallel_plot_worker (0, 4) sample_plot (6, 12) None no_cache).1 = false ∧
  cache (_parallel_plot_worker (0, 4) sample_plot (6, 12) None no_cache).2 = Absent.
Proof.
  apply (worker_never_creates_cache sample_plot (6, 12) None (0, 4) no_cache).
  discriminate.
Defined.

Lemma workers_commute_on_cache_witness :
  cache (_parallel_plot_worker (1, 5) sample_plot (6, 12) None
           (_parallel_plot_worker (0, 4) sample_plot (6, 12) None old_cache).2).2 =
  cache (_parallel_plot_worker (0, 4) sample_plot (6, 12) None
           (_parallel_plot_worker (1, 5) sample_plot (6, 12) None old_cache).2).2.
Proof.
  apply (workers_commute_on_cache sample_plot (6, 12) None (0, 4) (1, 5) old_cache).
  simpl. lia.
Defined.

Lemma returned_layout_witness :
  ∃ fig axes w',
    parallel_plot sample_host sample_plot [1; 2; 3; 4; 5] (2, 3) None None None None
      (6, 12) true true true no_cache = (Ok (fig, axes), w') ∧
    (∀ i x, (i, x) ∈ tasks (effective_total None [1; 2; 3; 4; 5]) [1; 2; 3; 4; 5] →
       ∃ r c img ax,
         grid_cell true 2 3 i = Ok (Z.of_nat r, Z.of_nat c) ∧
         rendering sample_plot (6, 12) None x = Ok img ∧
         cell axes r c = Some ax ∧ ax_images ax = [img]) ∧
    (∀ r c ax, cell axes r c = Some ax →
       (∀ i x, (i, x) ∈ tasks (effective_total None [1; 2; 3; 4; 5]) [1; 2; 3; 4; 5] →
          grid_cell true 2 3 i ≠ Ok (Z.of_nat r, Z.of_nat c)) →
       ax_images ax = []).
Proof.
  destruct (parallel_plot sample_host sample_plot [1; 2; 3; 4; 5] (2, 3) None None
              None None (6, 12) true true true no_cache)
    as [[[fig axes]|e] w'] eqn:Hrun; [|by vm_compute in Hrun].
  exists fig, axes, w'. split; [done|].
  apply (returned_layout sample_host sample_plot (6, 12) None true 2 3
           [1; 2; 3; 4; 5] None None None true true no_cache fig axes w').
  - apply reverse_Permutation.
  - exact Hrun.
Defined.

Lemma result_independent_of_schedule_witness :
  ∃ fig axes w1 w2,
    parallel_plot sample_host sample_plot [1; 2; 3; 4; 5] (2, 3) None None None None
      (6, 12) true false true old_cache = (Ok (fig, axes), w1) ∧
    parallel_plot orderly_host sample_plot [1; 2; 3; 4; 5] (2, 3) None None None None
      (6, 12) true false true old_cache = (Ok (fig, axes), w2) ∧
    cache w2 = cache w1 ∧ pools w2 = pools w1 ∧ calls w2 ≡ₚ calls w1.
Proof.
  destruct (parallel_plot sample_host sample_plot [1; 2; 3; 4; 5] (2, 3) None None
              None None (6, 12) true false true old_cache)
    as [[[fig axes]|e] w1] eqn:Hrun; [|by vm_compute in Hrun].
  destruct (result_independent_of_schedule sample_host orderly_host sample_plot
              [1; 2; 3; 4; 5] 2 3 None None None None (6, 12) true false true
              old_cache fig axes w1) as (w2 & Hrun2 & Hsame).
  - reflexivity.
  - reflexivity.
  - apply reverse_Permutation.
  - reflexivity.
  - discriminate.
  - exact Hrun.
  - by exists fig, axes, w1, w2.
Defined.

Lemma returned_figure_shape_witness :
  ∃ fig axes w',
    parallel_plot sample_host sample_plot [1; 2; 3; 4; 5] (2, 3) None None None None
      (6, 12) true true true no_cache = (Ok (fig, axes), w') ∧
    fig_size fig = (3 * 6, 2 * 12) ∧
    rectangular 2 3 axes ∧
    ∀ i j ax, cell axes i j = Some ax →
      ax_xticks ax = Some [] ∧ ax_yticks ax = Some [] ∧ ax_spines_visible ax = false.
Proof.
  destruct (parallel_plot sample_host sample_plot [1; 2; 3; 4; 5] (2, 3) None None
              None None (6, 12) true true true no_cache)
    as [[[fig axes]|e] w'] eqn:Hrun; [|by vm_compute in Hrun].
  exists fig, axes, w'. split; [done|].
  apply (returned_figure_shape sample_host sample_plot (6, 12) None true 2 3
           [1; 2; 3; 4; 5] None None None true true no_cache fig axes w').
  - apply reverse_Permutation.
  - exact Hrun.
Defined.

Lemma return_means_tasks_fit_witness :
  0 < 2 ∧ 0 < 3 ∧ 1 ≤ effective_total None [1; 2; 3; 4; 5] ∧
  1 ≤ cpu_count sample_host ∧
  ∀ i x, (i, x) ∈ tasks (effective_total None [1; 2; 3; 4; 5]) [1; 2; 3; 4; 5] →
    i < 2 * 3 ∧ is_ok (rendering sample_plot (6, 12) None x) = true.
Proof.
  destruct (parallel_plot sample_host sample_plot [1; 2; 3; 4; 5] (2, 3) None None
              None None (6, 12) true true true no_cache)
    as [[[fig axes]|e] w'] eqn:Hrun; [|by vm_compute in Hrun].
  apply (return_means_tasks_fit sample_host sample_plot (6, 12) None true 2 3
           [1; 2; 3; 4; 5] None None None true true no_cache fig axes w').
  - apply reverse_Permutation.
  - exact Hrun.
Defined.

Lemma plot_fn_called_once_per_task_witness :
  ∃ order,
    calls (parallel_plot sample_host sample_plot [1; 2; 3; 4; 5] (2, 3) None None
             None None (6, 12) true true true no_cache).2 = calls no_cache ++ order ∧
    order ≡ₚ (tasks (effective_total None [1; 2; 3; 4; 5]) [1; 2; 3; 4; 5]).*1 ∧
    NoDup order.
Proof.
  destruct (parallel_plot sample_host sample_plot [1; 2; 3; 4; 5] (2, 3) None None
              None None (6, 12) true true true no_cache)
    as [[[fig axes]|e] w'] eqn:Hrun; [|by vm_compute in Hrun].
  apply (plot_fn_called_once_per_task sample_host sample_plot (6, 12) None true 2 3
           [1; 2; 3; 4; 5] None None None true true no_cache fig axes w').
  - apply reverse_Permutation.
  - exact Hrun.
Defined.

Lemma plot_fn_called_for_tasks_only_witness :
  3 ∈ calls no_cache ∨
  (0 ≤ 3 < effective_total (Some 4) [1; 2; 3; -1; 5; 6] ∧
   3 < Z.of_nat (length [1; 2; 3; -1; 5; 6])).
Proof.
  apply (plot_fn_called_for_tasks_only sample_host sample_plot (6, 12) None false 2 3
           [1; 2; 3; -1; 5; 6] (Some 4) None None true true no_cache 3).
  - apply reverse_Permutation.
  - apply list_elem_of_lookup. exists 0%nat. by vm_compute.
Defined.

Lemma failure_leaves_cache_witness :
  ∃ d,
    cache (parallel_plot sample_host sample_plot [1; 2] (0, 3) None None None None
             (6, 12) false true true no_cache).2 = Directory d ∧
    dom (entries_of (cache no_cache)) ⊆ dom d.
Proof.
  destruct (parallel_plot sample_host sample_plot [1; 2] (0, 3) None None None None
              (6, 12) false true true no_cache)
    as [[r|e] w'] eqn:Hrun; [by vm_compute in Hrun|].
  apply (failure_leaves_cache sample_host sample_plot (6, 12) None false 0 3
           [1; 2] None None None true true no_cache e w').
  - discriminate.
  - exact Hrun.
Defined.

Lemma progress_bar_missing_witness :
  ∃ w',
    parallel_plot plain_host sample_plot [1; 2; 3] (1, 3) None None None None
      (6, 12) false true true no_cache = (Raise ImportError, w') ∧
    pools w' = pools no_cache ++ [Z.min (effective_total None [1; 2; 3]) (cpu_count plain_host)].
Proof.
  apply (progress_bar_missing plain_host sample_plot (6, 12) None false 1 3
           [1; 2; 3] None None None true true no_cache).
  - lia.
  - lia.
  - simpl. lia.
  - simpl. lia.
  - reflexivity.
  - reflexivity.
Defined.

Lemma regular_file_in_place_of_cache_witness :
  ∃ w',
    parallel_plot sample_host sample_plot [1; 2; 3] (1, 3) None None None None
      (6, 12) false true true file_in_place = (Raise NotADirectoryError, w') ∧
    cache w' = RegularFile.
Proof.
  apply (regular_file_in_place_of_cache sample_host sample_plot (6, 12) None false 1 3
           [1; 2; 3] None None None true true file_in_place).
  - reflexivity.
  - lia.
  - lia.
  - simpl. lia.
  - simpl. lia.
  - reflexivity.
  - discriminate.
  - repeat constructor.
  - apply reverse_Permutation.
Defined.

Lemma place_succeeds_iff_in_grid_witness :
  (6 < 2 * 3 → is_ok (place false 2 3 sample_axes (6, 60)) = true) ∧
  (2 * 3 ≤ 6 → place false 2 3 sample_axes (6, 60) = Raise IndexError).
Proof.
  apply (place_succeeds_iff_in_grid false 2 3 sample_axes (6, 60)).
  - split; [reflexivity|]. repeat constructor.
  - lia.
  - lia.
  - simpl. lia.
Defined.
